(** * Product acquisition in the storefront: slice, listing view, handlers

    A shallow embedding of
    - the [shoppingProducts] Redux slice and its three thunks, the listing
      thunk of the primary source, the details thunk and the listing thunk
      of the backup source (client/src/store/shop/products-slice),
    - the [ShoppingListing] view that owns [fallbackMode] and reacts to the
      slice and to the address through effects, with its handlers, its
      query-string helper and the blocks it renders
      (client/src/pages/shopping-view/listing),
    - the badge of [ShoppingProductTile]
      (client/src/components/shopping-view/product-tile),
    - the four handlers of server/controllers/shop/products-controller.js,
      with the names they take from the Firestore module and the numbers
      they compute as JavaScript has them,
    followed by the properties of the primary/fallback acquisition path and
    of the code around it. *)

From Stdlib Require Import ZArith Ascii String List Bool Lia.
From stdpp Require Import base decidable option list strings.
Import ListNotations.
Open Scope string_scope.

(** ** JavaScript values used by the code *)

(** [x || d] on a string that may be absent: the empty string and
    [undefined]/[null] are both falsy. *)
Definition or_else (x : option string) (d : string) : string :=
  match x with
  | Some s => if decide (s = "") then d else s
  | None => d
  end.

(** The product documents are passed through untouched by this code. *)
Record Product := {
  id : string;
  title : string;
  price : Z;
  salePrice : Z;
  category : string;
  brand : string;
  totalStock : Z;
  image : string
}.

(** ** The failure caught by a thunk *)

(** [error.response.data]: the parsed body; only [message] and [error] are
    read. *)
Record ResponseData := {
  data_message : option string;
  data_error : option string
}.

(** [error.response]: [data] is [None] when the body is [null]/[undefined],
    on which a plain property read throws. *)
Record ErrorResponse := {
  status : Z;
  data : option ResponseData
}.

(** The value caught by [catch (error)]: an axios error or any other
    exception; an absent field reads as [undefined]. *)
Record RequestError := {
  err_response : option ErrorResponse;
  err_code : option string;
  err_message : option string
}.

(** The object handed to [rejectWithValue]. *)
Record RejectValue := {
  type : string;
  message : string;
  code : string
}.

#[global] Instance RejectValue_eq_dec : EqDecision RejectValue.
Proof. solve_decision. Defined.

(** ** Thunk catch blocks *)

(** The [catch] block of [fetchAllFilteredProducts].  [None] is the case in
    which the block itself throws (a property read on a null body), so that
    the thunk is rejected without a value.  [debugAuthStateAsync] only logs
    and is left out. *)
Definition fetchAllFilteredProducts_catch (error : RequestError)
  : option RejectValue :=
  match err_response error with
  | Some response =>
      if decide (status response = 401%Z) then
        d ← data response;
        Some {| type := "AUTH_ERROR";
                message := or_else (data_message d)
                             "Authentication required. Please log in.";
                code := "UNAUTHORIZED" |}
      else if decide (status response = 404%Z) then
        Some {| type := "NOT_FOUND";
                message := "Products not found";
                code := "PRODUCTS_NOT_FOUND" |}
      else if decide (status response = 500%Z) then
        d ← data response;
        Some {| type := "SERVER_ERROR";
                message := or_else (data_error d)
                             "Server error while fetching products";
                code := "SERVER_ERROR" |}
      else
        d ← data response;
        Some {| type := "API_ERROR";
                message := or_else (data_message d) "Failed to fetch products";
                code := "API_ERROR" |}
  | None =>
      if decide (err_code error = Some "ECONNABORTED") then
        Some {| type := "NETWORK_ERROR";
                message := "Request timeout. Please check your connection.";
                code := "TIMEOUT" |}
      else
        Some {| type := "NETWORK_ERROR";
                message := or_else (err_message error) "Network error occurred";
                code := "NETWORK_ERROR" |}
  end.

(** The [catch] block of [fetchProductsFromMongoDB]:
    [error.response?.data?.message || "Failed to fetch products"]. *)
Definition fetchProductsFromMongoDB_catch (error : RequestError) : RejectValue :=
  {| type := "DATABASE_ERROR";
     message := or_else (r ← err_response error; d ← data r; data_message d)
                  "Failed to fetch products";
     code := "DATABASE_ERROR" |}.

(** ** Error categories of the specification *)

Inductive Category :=
  | Unauthorized | NotFound | ServerFault | Timeout | NetworkFault
  | GenericApiFault.

#[global] Instance Category_eq_dec : EqDecision Category.
Proof. solve_decision. Defined.

(** How a rejected value is read as a category: by its [type], and for
    [NETWORK_ERROR] by its [code].  [DATABASE_ERROR] has no category. *)
Definition categoryOf (p : RejectValue) : option Category :=
  if decide (type p = "AUTH_ERROR") then Some Unauthorized
  else if decide (type p = "NOT_FOUND") then Some NotFound
  else if decide (type p = "SERVER_ERROR") then Some ServerFault
  else if decide (type p = "API_ERROR") then Some GenericApiFault
  else if decide (type p = "NETWORK_ERROR") then
    if decide (code p = "TIMEOUT") then Some Timeout else Some NetworkFault
  else None.

(** The rule order as the specification words it: abort/timeout first, then
    the HTTP rules, then the absence of a response. *)
Definition spec_category (error : RequestError) : Category :=
  if decide (err_code error = Some "ECONNABORTED") then Timeout
  else match err_response error with
       | Some response =>
           if decide (status response = 401%Z) then Unauthorized
           else if decide (status response = 404%Z) then NotFound
           else if decide (status response = 500%Z) then ServerFault
           else GenericApiFault
       | None => NetworkFault
       end.

(** ** The slice *)

Record ShopProductsState := {
  isLoading : bool;
  productList : list Product;
  productDetails : option Product;
  error : option RejectValue;
  firebaseError : option RejectValue;
  authError : option RejectValue
}.

Definition initialState : ShopProductsState :=
  {| isLoading := false;
     productList := [];
     productDetails := None;
     error := None;
     firebaseError := None;
     authError := None |}.

(** [result.data] of a product listing call; [payload_data] is its [data]
    field, absent when the body has none. *)
Record ListPayload := { payload_data : option (list Product) }.

(** [result.data] of a product details call. *)
Record DetailsPayload := { details_data : option Product }.

Inductive Action :=
  | setProductDetails
  | clearProductErrors
  | clearProductList
  | fetchAllFilteredProducts_pending
  | fetchAllFilteredProducts_fulfilled (payload : ListPayload)
  | fetchAllFilteredProducts_rejected (payload : option RejectValue)
  | fetchProductDetails_pending
  | fetchProductDetails_fulfilled (payload : DetailsPayload)
  | fetchProductDetails_rejected (payload : option RejectValue)
  | fetchProductsFromMongoDB_pending
  | fetchProductsFromMongoDB_fulfilled (payload : ListPayload)
  | fetchProductsFromMongoDB_rejected (payload : option RejectValue).

(** [action.payload?.type === t] *)
Definition payload_type_is (payload : option RejectValue) (t : string) : bool :=
  match payload with
  | Some p => bool_decide (type p = t)
  | None => false
  end.

(** The reducers of [shoppingProductSlice], one case per action. *)
Definition reducer (state : ShopProductsState) (action : Action)
  : ShopProductsState :=
  match action with
  | setProductDetails =>
      {| isLoading := isLoading state; productList := productList state;
         productDetails := None;
         error := error state; firebaseError := firebaseError state;
         authError := authError state |}
  | clearProductErrors =>
      {| isLoading := isLoading state; productList := productList state;
         productDetails := productDetails state;
         error := None; firebaseError := None; authError := None |}
  | clearProductList =>
      {| isLoading := isLoading state; productList := [];
         productDetails := productDetails state;
         error := None; firebaseError := firebaseError state;
         authError := authError state |}
  | fetchAllFilteredProducts_pending =>
      {| isLoading := true; productList := productList state;
         productDetails := productDetails state;
         error := None; firebaseError := None; authError := None |}
  | fetchAllFilteredProducts_fulfilled payload =>
      {| isLoading := false;
         productList := default [] (payload_data payload);
         productDetails := productDetails state;
         error := None; firebaseError := firebaseError state;
         authError := authError state |}
  | fetchAllFilteredProducts_rejected payload =>
      if payload_type_is payload "AUTH_ERROR" then
        {| isLoading := false; productList := [];
           productDetails := productDetails state;
           error := payload; firebaseError := firebaseError state;
           authError := payload |}
      else if payload_type_is payload "NOT_FOUND" then
        {| isLoading := false; productList := [];
           productDetails := productDetails state;
           error := payload; firebaseError := payload;
           authError := authError state |}
      else
        {| isLoading := false; productList := [];
           productDetails := productDetails state;
           error := payload; firebaseError := firebaseError state;
           authError := authError state |}
  | fetchProductDetails_pending =>
      {| isLoading := true; productList := productList state;
         productDetails := productDetails state;
         error := None; firebaseError := firebaseError state;
         authError := authError state |}
  | fetchProductDetails_fulfilled payload =>
      {| isLoading := false; productList := productList state;
         productDetails := details_data payload;
         error := None; firebaseError := firebaseError state;
         authError := authError state |}
  | fetchProductDetails_rejected payload =>
      {| isLoading := false; productList := productList state;
         productDetails := None;
         error := payload; firebaseError := firebaseError state;
         authError := authError state |}
  | fetchProductsFromMongoDB_pending =>
      {| isLoading := true; productList := productList state;
         productDetails := productDetails state;
         error := None; firebaseError := firebaseError state;
         authError := authError state |}
  | fetchProductsFromMongoDB_fulfilled payload =>
      {| isLoading := false;
         productList := default [] (payload_data payload);
         productDetails := productDetails state;
         error := None; firebaseError := firebaseError state;
         authError := authError state |}
  | fetchProductsFromMongoDB_rejected payload =>
      {| isLoading := false; productList := [];
         productDetails := productDetails state;
         error := payload; firebaseError := firebaseError state;
         authError := authError state |}
  end.

(** ** The details thunk *)

(** The [catch] block of [fetchProductDetails]; [None] when the block
    itself throws on a [null] body. *)
Definition fetchProductDetails_catch (error : RequestError)
  : option RejectValue :=
  match err_response error with
  | Some response =>
      if decide (status response = 401%Z) then
        Some {| type := "AUTH_ERROR";
                message := "Authentication required to view product details";
                code := "UNAUTHORIZED" |}
      else if decide (status response = 404%Z) then
        Some {| type := "NOT_FOUND";
                message := "Product not found";
                code := "PRODUCT_NOT_FOUND" |}
      else
        d ← data response;
        Some {| type := "SERVER_ERROR";
                message := or_else (data_message d)
                             "Failed to fetch product details";
                code := "SERVER_ERROR" |}
  | None =>
      Some {| type := "NETWORK_ERROR";
              message := or_else (err_message error) "Network error occurred";
              code := "NETWORK_ERROR" |}
  end.

(** ** Query strings *)

(** [l.join(sep)]; an array put into [URLSearchParams] is written as
    [l.join(",")]. *)
Fixpoint join (sep : string) (l : list string) : string :=
  match l with
  | [] => ""
  | [x] => x
  | x :: t => x ++ sep ++ join sep t
  end.

(** [filters]: a JavaScript object from section id to an array of options,
    in insertion order of the keys. *)
Definition Filters := list (string * list string).

Section SearchParams.

(** [encodeURIComponent] is the browser's. *)
Variable encodeURIComponent : string -> string.

Definition createSearchParamsHelper (filterParams : Filters) : string :=
  join "&"
    (flat_map
       (fun entry : string * list string =>
          let (key, value) := entry in
          if decide (0 < length value)%nat
          then [key ++ "=" ++ encodeURIComponent (join "," value)]
          else [])
       filterParams).

End SearchParams.

(** The options of a section, [[]] when the section is absent. *)
Fixpoint options_of (sectionId : string) (f : Filters) : list string :=
  match f with
  | [] => []
  | (k, options) :: t =>
      if decide (k = sectionId) then options else options_of sectionId t
  end.

(** [searchParams.get("category")] once the search parameters have been set
    to [new URLSearchParams(createSearchParamsHelper(f))]: the helper
    writes the section [category] only when it has options, as their
    [join(",")], and the browser reads a value back as it was before
    [encodeURIComponent].  Section ids are taken to hold none of the
    characters that separate the parts of a query string. *)
Definition category_of_query (f : Filters) : option string :=
  match options_of "category" f with
  | [] => None
  | options => Some (join "," options)
  end.

(** ** The listing view *)

(** The argument [{ filterParams, sortParams }] of the two listing thunks. *)
Record FetchRequest := {
  filterParams : Filters;
  sortParams : string
}.

(** The listing thunks. *)
Inductive ThunkCall :=
  | fetchAllFilteredProducts (arg : FetchRequest)
  | fetchProductsFromMongoDB (arg : FetchRequest).

Record Toast := {
  toast_title : string;
  toast_description : string;
  toast_variant : string
}.

#[global] Instance Toast_eq_dec : EqDecision Toast.
Proof. solve_decision. Defined.

(** The values of one render, as the effects and the handlers made by that
    render see them.  [d_filters_ref] stands for the identity of the
    [filters] object, which is what a dependency array compares. *)
Record Deps := {
  d_authError : option RejectValue;
  d_firebaseError : option RejectValue;
  d_fallbackMode : bool;
  d_filters : Filters;
  d_filters_ref : nat;
  d_sort : option string;
  d_categorySearchParam : option string
}.

#[global] Instance Deps_eq_dec : EqDecision Deps.
Proof. solve_decision. Defined.

(** The mounted [ShoppingListing] together with the store it selects from.
    - [store]: the [shopProducts] slice;
    - [filters], [sort], [fallbackMode]: the [useState] cells;
      [filters_ref] counts the objects [filters] has been set to, every
      [setFilters] of the view being given a new object;
    - [categorySearchParam]: the [category] parameter of the address;
    - [session]: the [filters] item of [sessionStorage];
    - [toasts], [dispatched]: the toasts shown and the listing thunks
      dispatched so far, oldest first;
    - [seen]: the values of the last committed render, [None] before the
      first one.
    The two effects left out write no cell of this record: the one that
    opens the details dialog and the one with an empty body. *)
Record Listing := {
  store : ShopProductsState;
  filters : Filters;
  filters_ref : nat;
  sort : option string;
  fallbackMode : bool;
  categorySearchParam : option string;
  session : option Filters;
  toasts : list Toast;
  dispatched : list ThunkCall;
  seen : option Deps
}.

Definition set_store (s : ShopProductsState) (c : Listing) : Listing :=
  {| store := s; filters := filters c; filters_ref := filters_ref c;
     sort := sort c; fallbackMode := fallbackMode c;
     categorySearchParam := categorySearchParam c; session := session c;
     toasts := toasts c; dispatched := dispatched c; seen := seen c |}.

(** [setFilters(f)] with an object made for the call. *)
Definition setFilters (f : Filters) (c : Listing) : Listing :=
  {| store := store c; filters := f; filters_ref := S (filters_ref c);
     sort := sort c; fallbackMode := fallbackMode c;
     categorySearchParam := categorySearchParam c; session := session c;
     toasts := toasts c; dispatched := dispatched c; seen := seen c |}.

Definition setSort (s : string) (c : Listing) : Listing :=
  {| store := store c; filters := filters c; filters_ref := filters_ref c;
     sort := Some s; fallbackMode := fallbackMode c;
     categorySearchParam := categorySearchParam c; session := session c;
     toasts := toasts c; dispatched := dispatched c; seen := seen c |}.

Definition setFallbackMode (b : bool) (c : Listing) : Listing :=
  {| store := store c; filters := filters c; filters_ref := filters_ref c;
     sort := sort c; fallbackMode := b;
     categorySearchParam := categorySearchParam c; session := session c;
     toasts := toasts c; dispatched := dispatched c; seen := seen c |}.

(** [setSearchParams(new URLSearchParams(createSearchParamsHelper(f)))] *)
Definition setSearchParams (f : Filters) (c : Listing) : Listing :=
  {| store := store c; filters := filters c; filters_ref := filters_ref c;
     sort := sort c; fallbackMode := fallbackMode c;
     categorySearchParam := category_of_query f; session := session c;
     toasts := toasts c; dispatched := dispatched c; seen := seen c |}.

Definition set_session (f : Filters) (c : Listing) : Listing :=
  {| store := store c; filters := filters c; filters_ref := filters_ref c;
     sort := sort c; fallbackMode := fallbackMode c;
     categorySearchParam := categorySearchParam c; session := Some f;
     toasts := toasts c; dispatched := dispatched c; seen := seen c |}.

Definition toast (t : Toast) (c : Listing) : Listing :=
  {| store := store c; filters := filters c; filters_ref := filters_ref c;
     sort := sort c; fallbackMode := fallbackMode c;
     categorySearchParam := categorySearchParam c; session := session c;
     toasts := (toasts c ++ [t])%list; dispatched := dispatched c;
     seen := seen c |}.

Definition record_call (t : ThunkCall) (c : Listing) : Listing :=
  {| store := store c; filters := filters c; filters_ref := filters_ref c;
     sort := sort c; fallbackMode := fallbackMode c;
     categorySearchParam := categorySearchParam c; session := session c;
     toasts := toasts c; dispatched := (dispatched c ++ [t])%list;
     seen := seen c |}.

Definition set_seen (d : Deps) (c : Listing) : Listing :=
  {| store := store c; filters := filters c; filters_ref := filters_ref c;
     sort := sort c; fallbackMode := fallbackMode c;
     categorySearchParam := categorySearchParam c; session := session c;
     toasts := toasts c; dispatched := dispatched c; seen := Some d |}.

(** [dispatch(action)]: the store is updated at once. *)
Definition dispatch (a : Action) (c : Listing) : Listing :=
  set_store (reducer (store c) a) c.

(** Dispatching a thunk starts the call and dispatches its [pending] action. *)
Definition dispatch_thunk (t : ThunkCall) (c : Listing) : Listing :=
  match t with
  | fetchAllFilteredProducts _ =>
      dispatch fetchAllFilteredProducts_pending (record_call t c)
  | fetchProductsFromMongoDB _ =>
      dispatch fetchProductsFromMongoDB_pending (record_call t c)
  end.

(** What a render reads: the selected slice fields, the state cells and the
    [category] parameter. *)
Definition render (c : Listing) : Deps :=
  {| d_authError := authError (store c);
     d_firebaseError := firebaseError (store c);
     d_fallbackMode := fallbackMode c;
     d_filters := filters c;
     d_filters_ref := filters_ref c;
     d_sort := sort c;
     d_categorySearchParam := categorySearchParam c |}.

(** [fetchProducts], closed over the values [v] of the render that made it.
    [filters] is never [null]. *)
Definition fetchProducts (v : Deps) (c : Listing) : Listing :=
  match d_sort v with
  | Some s =>
      let arg := {| filterParams := d_filters v; sortParams := s |} in
      if d_fallbackMode v
      then dispatch_thunk (fetchProductsFromMongoDB arg) c
      else dispatch_thunk (fetchAllFilteredProducts arg) c
  | None => c
  end.

Definition authToast (e : RejectValue) : Toast :=
  {| toast_title := "Authentication Required";
     toast_description :=
       or_else (Some (message e)) "Please log in to view products";
     toast_variant := "destructive" |}.

(** The one-time notice of the switch to the backup source. *)
Definition switchedToast : Toast :=
  {| toast_title := "Using Backup Database";
     toast_description := "Primary database unavailable, using backup source";
     toast_variant := "default" |}.

(** [useEffect(..., [authError, toast, dispatch])] *)
Definition authErrorEffect (v : Deps) (c : Listing) : Listing :=
  match d_authError v with
  | Some e => dispatch clearProductErrors (toast (authToast e) c)
  | None => c
  end.

(** [useEffect(..., [firebaseError, fallbackMode, toast])] *)
Definition firebaseErrorEffect (v : Deps) (c : Listing) : Listing :=
  match d_firebaseError v with
  | Some _ =>
      if d_fallbackMode v then c
      else toast switchedToast (setFallbackMode true c)
  | None => c
  end.

(** [useEffect(..., [categorySearchParam])]: [setSort("price-lowtohigh")]
    and [setFilters(JSON.parse(sessionStorage.getItem("filters")) || {})]. *)
Definition setupEffect (c : Listing) : Listing :=
  setFilters (default [] (session c)) (setSort "price-lowtohigh" c).

(** [useEffect(..., [filters])]: the address is rewritten when [filters]
    has a key. *)
Definition urlEffect (v : Deps) (c : Listing) : Listing :=
  if decide (0 < length (d_filters v))%nat
  then setSearchParams (d_filters v) c
  else c.

(** The dependency arrays, without the functions [toast] and [dispatch],
    which never change. *)
Definition auth_deps (d : Deps) : option RejectValue := d_authError d.

Definition firebase_deps (d : Deps) : option RejectValue * bool :=
  (d_firebaseError d, d_fallbackMode d).

Definition setup_deps (d : Deps) : option string := d_categorySearchParam d.

Definition url_deps (d : Deps) : nat := d_filters_ref d.

Definition fetch_deps (d : Deps) : option string * nat * bool :=
  (d_sort d, d_filters_ref d, d_fallbackMode d).

(** Whether a dependency array differs from the one of the last commit. *)
Definition changed {A} `{EqDecision A} (f : Deps -> A)
    (prev : option Deps) (v : Deps) : bool :=
  match prev with
  | Some d => negb (bool_decide (f d = f v))
  | None => true
  end.

(** One render and commit: every effect whose dependencies changed runs, in
    the order of the source, on the values of that render; the updates
    they make show in the next render. *)
Definition commit (c : Listing) : Listing :=
  let v := render c in
  let prev := seen c in
  let c1 := if changed auth_deps prev v then authErrorEffect v c else c in
  let c2 := if changed firebase_deps prev v
            then firebaseErrorEffect v c1 else c1 in
  let c3 := if changed setup_deps prev v then setupEffect c2 else c2 in
  let c4 := if changed url_deps prev v then urlEffect v c3 else c3 in
  let c5 := if changed fetch_deps prev v then fetchProducts v c4 else c4 in
  set_seen v c5.

(** The view is at rest when the last commit saw the current values. *)
Definition settled (c : Listing) : Prop := seen c = Some (render c).

#[global] Instance settled_dec c : Decision (settled c).
Proof. unfold settled. apply _. Defined.

(** Re-render until at rest. *)
Fixpoint flush (fuel : nat) (c : Listing) : Listing :=
  match fuel with
  | O => c
  | S k => if decide (settled c) then c else flush k (commit c)
  end.

(** Four commits are allowed; they are enough after mounting and after
    every event, as shown below for every state the view reaches. *)
Definition settle (c : Listing) : Listing := flush 4 c.

(** The view before its first render: the slice as the store holds it, the
    [filters] item of session storage and the [category] parameter of the
    address the page was opened with. *)
Definition unmounted (s : ShopProductsState) (stored : option Filters)
    (address : option string) : Listing :=
  {| store := s; filters := []; filters_ref := 0; sort := None;
     fallbackMode := false; categorySearchParam := address;
     session := stored; toasts := []; dispatched := []; seen := None |}.

Definition mount (s : ShopProductsState) (stored : option Filters)
    (address : option string) : Listing :=
  settle (unmounted s stored address).

(** ** Handlers and events *)

(** [indexOf] then [splice(index, 1)]: drop the first occurrence. *)
Fixpoint remove_first (x : string) (l : list string) : list string :=
  match l with
  | [] => []
  | y :: t => if decide (y = x) then t else y :: remove_first x t
  end.

(** The option is pushed when absent and spliced out when present; a new
    section is added after the existing ones. *)
Fixpoint toggle_filter (sectionId opt : string) (f : Filters) : Filters :=
  match f with
  | [] => [(sectionId, [opt])]
  | (k, options) :: t =>
      if decide (k = sectionId) then
        (k, if decide (opt ∈ options) then remove_first opt options
            else (options ++ [opt])%list) :: t
      else (k, options) :: toggle_filter sectionId opt t
  end.

Definition handleFilter (getSectionId getCurrentOption : string) (c : Listing)
  : Listing :=
  let cpyFilters := toggle_filter getSectionId getCurrentOption (filters c) in
  set_session cpyFilters (setFilters cpyFilters c).

Definition handleSort (value : string) (c : Listing) : Listing :=
  setSort value c.

(** [handleGetProductDetails]: the details thunk is dispatched, which
    dispatches its [pending] action. *)
Definition handleGetProductDetails (getCurrentProductId : string)
    (c : Listing) : Listing :=
  dispatch fetchProductDetails_pending c.

(** [handleRetryWithFirebase]: the call of [fetchProducts] is the one made
    by the render the handler belongs to. *)
Definition handleRetryWithFirebase (c : Listing) : Listing :=
  fetchProducts (render c)
    (dispatch clearProductErrors (setFallbackMode false c)).

(** How the call of a listing thunk ends. *)
Inductive Outcome :=
  | Resolved (result : ListPayload)
  | Thrown (error : RequestError).

(** How the call of the details thunk ends. *)
Inductive DetailsOutcome :=
  | DetailsResolved (result : DetailsPayload)
  | DetailsThrown (error : RequestError).

(** The action a thunk dispatches when its call ends.  The reducers read
    neither the argument nor the request id of the call. *)
Definition settled_action (call : ThunkCall) (o : Outcome) : Action :=
  match call, o with
  | fetchAllFilteredProducts _, Resolved r => fetchAllFilteredProducts_fulfilled r
  | fetchAllFilteredProducts _, Thrown e =>
      fetchAllFilteredProducts_rejected (fetchAllFilteredProducts_catch e)
  | fetchProductsFromMongoDB _, Resolved r => fetchProductsFromMongoDB_fulfilled r
  | fetchProductsFromMongoDB _, Thrown e =>
      fetchProductsFromMongoDB_rejected (Some (fetchProductsFromMongoDB_catch e))
  end.

Definition details_settled_action (o : DetailsOutcome) : Action :=
  match o with
  | DetailsResolved r => fetchProductDetails_fulfilled r
  | DetailsThrown e =>
      fetchProductDetails_rejected (fetchProductDetails_catch e)
  end.

(** What can happen to the mounted view, one event-loop turn each: the call
    of a listing thunk ends, a button is pressed, the errors are cleared, a
    filter option or a sort order is picked, a product tile is clicked, the
    call of the details thunk ends. *)
Inductive Event :=
  | CallSettled (call : ThunkCall) (o : Outcome)
  | TryAgain
  | SwitchToPrimary
  | ClearErrors
  | FilterClicked (sectionId opt : string)
  | SortChosen (value : string)
  | TileClicked (getCurrentProductId : string)
  | DetailsSettled (o : DetailsOutcome).

#[global] Instance Product_eq_dec : EqDecision Product.
Proof. solve_decision. Defined.
#[global] Instance ResponseData_eq_dec : EqDecision ResponseData.
Proof. solve_decision. Defined.
#[global] Instance ErrorResponse_eq_dec : EqDecision ErrorResponse.
Proof. solve_decision. Defined.
#[global] Instance RequestError_eq_dec : EqDecision RequestError.
Proof. solve_decision. Defined.
#[global] Instance ListPayload_eq_dec : EqDecision ListPayload.
Proof. solve_decision. Defined.
#[global] Instance DetailsPayload_eq_dec : EqDecision DetailsPayload.
Proof. solve_decision. Defined.
#[global] Instance FetchRequest_eq_dec : EqDecision FetchRequest.
Proof. solve_decision. Defined.
#[global] Instance ThunkCall_eq_dec : EqDecision ThunkCall.
Proof. solve_decision. Defined.
#[global] Instance Outcome_eq_dec : EqDecision Outcome.
Proof. solve_decision. Defined.
#[global] Instance DetailsOutcome_eq_dec : EqDecision DetailsOutcome.
Proof. solve_decision. Defined.
#[global] Instance Event_eq_dec : EqDecision Event.
Proof. solve_decision. Defined.

Definition handle (ev : Event) (c : Listing) : Listing :=
  match ev with
  | CallSettled call o => dispatch (settled_action call o) c
  | TryAgain => fetchProducts (render c) c
  | SwitchToPrimary => handleRetryWithFirebase c
  | ClearErrors => dispatch clearProductErrors c
  | FilterClicked s o => handleFilter s o c
  | SortChosen v => handleSort v c
  | TileClicked i => handleGetProductDetails i c
  | DetailsSettled o => dispatch (details_settled_action o) c
  end.

(** An event is handled and the view re-renders until at rest. *)
Definition step (c : Listing) (ev : Event) : Listing := settle (handle ev c).

Definition run (c : Listing) (evs : list Event) : Listing :=
  fold_left step evs c.

(** The states the view is in between events: it is mounted, on any state
    of the store, and then takes events. *)
Inductive reachable : Listing -> Prop :=
  | reachable_mount s stored address :
      reachable (mount s stored address)
  | reachable_step c ev : reachable c -> reachable (step c ev).

(** ** Reading the view as the controller of the specification *)

Inductive SourceMode := Primary | Fallback.

Definition mode (c : Listing) : SourceMode :=
  if fallbackMode c then Fallback else Primary.

(** The error the view renders as its error state. *)
Definition currentError (c : Listing) : option RejectValue := error (store c).

(** How many times the switch notice was shown. *)
Definition switched_count (c : Listing) : nat :=
  length (filter (fun t => t = switchedToast) (toasts c)).

(** ** The server handlers of the shop products *)

(** A value of [req.query]: a parameter given once is a string, a repeated
    one is an array. *)
Inductive QueryValue :=
  | QString (s : string)
  | QArray (l : list string).

(** [req.user]; an absent or empty [id] is falsy. *)
Record User := { user_id : option string }.

(** The numbers the handlers compute with: [parseInt] gives a whole number,
    an infinity or [NaN], and products, sums and differences of such stay
    among them. *)
Inductive Num :=
  | Whole (z : Z)
  | PosInfinity
  | NegInfinity
  | NaN.

#[global] Instance Num_eq_dec : EqDecision Num.
Proof. solve_decision. Defined.

(** The double nearest to a whole number [x >= 0], ties to even. *)
Definition nearest_double (x : Z) : Z :=
  if (x <? 2 ^ 53)%Z then x
  else
    let ulp := (2 ^ (Z.log2 x - 52))%Z in
    let q := (x / ulp)%Z in
    let r := (x mod ulp)%Z in
    let q' := if (2 * r <? ulp)%Z then q
              else if (ulp <? 2 * r)%Z then (q + 1)%Z
              else if Z.even q then q else (q + 1)%Z in
    (q' * ulp)%Z.

(** The number a whole result of an operation is stored as. *)
Definition num_of_Z (x : Z) : Num :=
  let r := nearest_double (Z.abs x) in
  if (2 ^ 1024 <=? r)%Z
  then (if (x <? 0)%Z then NegInfinity else PosInfinity)
  else Whole (Z.sgn x * r).

Definition num_neg (a : Num) : Num :=
  match a with
  | Whole x => Whole (- x)
  | PosInfinity => NegInfinity
  | NegInfinity => PosInfinity
  | NaN => NaN
  end.

(** [a * b] *)
Definition num_mul (a b : Num) : Num :=
  let signed (x : Z) (inf : Num) : Num :=
    if (x =? 0)%Z then NaN else if (0 <? x)%Z then inf else num_neg inf in
  match a, b with
  | NaN, _ | _, NaN => NaN
  | Whole x, Whole y => num_of_Z (x * y)
  | Whole x, inf | inf, Whole x => signed x inf
  | PosInfinity, PosInfinity | NegInfinity, NegInfinity => PosInfinity
  | PosInfinity, NegInfinity | NegInfinity, PosInfinity => NegInfinity
  end.

(** [a + b] *)
Definition num_add (a b : Num) : Num :=
  match a, b with
  | NaN, _ | _, NaN => NaN
  | Whole x, Whole y => num_of_Z (x + y)
  | Whole _, inf | inf, Whole _ => inf
  | PosInfinity, PosInfinity => PosInfinity
  | NegInfinity, NegInfinity => NegInfinity
  | PosInfinity, NegInfinity | NegInfinity, PosInfinity => NaN
  end.

(** [a - b] *)
Definition num_sub (a b : Num) : Num := num_add a (num_neg b).

(** A number in a JSON body: [null] unless it is finite. *)
Definition json_number (a : Num) : option Z :=
  match a with
  | Whole x => Some x
  | _ => None
  end.

(** What the handlers read of the request.  [q_page] and [q_limit] hold
    the values [parseInt] gives for the parameters when they are given. *)
Record Request := {
  req_user : option User;
  q_category : option QueryValue;
  q_brand : option QueryValue;
  q_sortBy : option string;
  q_page : option Num;
  q_limit : option Num;
  param_id : string
}.

Inductive Direction := asc | desc.

(** The Firestore query constraints the handler builds. *)
Inductive Constraint :=
  | where_in (field : string) (values : list string)
  | orderBy (field : string) (dir : Direction)
  | limit (n : Num).

(** The result of a call: a value, or an exception with its [message]. *)
Inductive Awaited (A : Type) :=
  | Returned (value : A)
  | Raised (error_message : option string).
Arguments Returned {A} value.
Arguments Raised {A} error_message.

#[global] Instance Awaited_bind : MBind Awaited :=
  fun A B f m =>
    match m with
    | Returned x => f x
    | Raised e => Raised e
    end.

(** The JSON bodies the handlers send. *)
Inductive Body :=
  | Failure (msg : string) (err : option string)
  | ProductPage (items : list Product) (total : Z) (page : option Z)
      (totalPages : option Z)
  | ProductList (items : list Product)
  | ProductDoc (item : Product).

Record Response := {
  res_status : Z;
  res_body : Body
}.

(** [verifyAuthentication]: the user id when [authenticated]. *)
Definition verifyAuthentication (req : Request) : option string :=
  u ← req_user req;
  i ← user_id u;
  if decide (i = "") then None else Some i.

(** [s.split(",")] *)
Fixpoint split_comma (s : string) : list string :=
  match s with
  | EmptyString => [""]
  | String a t =>
      if Ascii.eqb a ","%char then "" :: split_comma t
      else match split_comma t with
           | w :: ws => String a w :: ws
           | [] => [String a ""]
           end
  end.

(** An index of [slice] counted from the end when negative, and kept
    within the array. *)
Definition relative_index (len : Z) (i : Num) : Z :=
  match i with
  | Whole i => if (i <? 0)%Z then Z.max (len + i) 0 else Z.min i len
  | PosInfinity => len
  | NegInfinity | NaN => 0%Z
  end.

(** [l.slice(first, last)] *)
Definition js_slice {A} (l : list A) (first last : Num) : list A :=
  let len := Z.of_nat (length l) in
  let k := relative_index len first in
  let final := relative_index len last in
  take (Z.to_nat (final - k)) (drop (Z.to_nat k) l).

(** [typeof v === "string" ? v.split(",").filter(Boolean) : v], with the
    default [[]] of an absent parameter. *)
Definition facet_values (q : option QueryValue) : list string :=
  match q with
  | Some (QString s) => filter (fun x => x <> "") (split_comma s)
  | Some (QArray l) => l
  | None => []
  end.

(** The [switch (sortBy)] of the Firestore handler. *)
Definition sort_constraint (sortBy : string) : Constraint :=
  if decide (sortBy = "price-lowtohigh") then orderBy "price" asc
  else if decide (sortBy = "price-hightolow") then orderBy "price" desc
  else if decide (sortBy = "title-atoz") then orderBy "title" asc
  else if decide (sortBy = "title-ztoa") then orderBy "title" desc
  else orderBy "price" asc.

(** The array [constraints] at the point where the query is made. *)
Definition firebase_constraints (req : Request) : list Constraint :=
  let categories := facet_values (q_category req) in
  let brands := facet_values (q_brand req) in
  let sortBy := default "price-lowtohigh" (q_sortBy req) in
  let page := default (Whole 1) (q_page req) in
  let pageLimit := default (Whole 20) (q_limit req) in
  ((if decide (0 < length categories)%nat
    then [where_in "category" (js_slice categories (Whole 0) (Whole 10))]
    else []) ++
   (if decide (0 < length brands)%nat
    then [where_in "brand" (js_slice brands (Whole 0) (Whole 10))]
    else []) ++
   [sort_constraint sortBy; limit (num_mul pageLimit page)])%list.

(** [Math.ceil(n / d)] for the length [n] of an array, as a JSON body shows
    it: [null] when the quotient is not finite. *)
Definition ceil_div (n : Z) (d : Num) : option Z :=
  match d with
  | Whole d => if decide (d = 0%Z) then None else Some (- ((- n) / d))%Z
  | PosInfinity | NegInfinity => Some 0%Z
  | NaN => None
  end.

(** What the handlers destructure from [require("firebase-admin/firestore")]:
    for each name, the function the module exports under it, if any.  A
    name the module does not export is [undefined], and calling it throws.
    The functions that build a query return an object the handler only
    passes on, or throw; [getDocs] and [getDoc] reach the database. *)
Record FirestoreModule := {
  exports_collection : option (string -> Awaited unit);
  exports_where : option (string -> list string -> Awaited unit);
  exports_orderBy : option (string -> Direction -> Awaited unit);
  exports_limit : option (Num -> Awaited unit);
  exports_query : option (list Constraint -> Awaited unit);
  exports_getDocs : option (list Constraint -> Awaited (list Product));
  exports_doc : option (string -> string -> Awaited unit);
  exports_getDoc : option (string -> Awaited (option Product))
}.

(** The call of a destructured name. *)
Definition call_of {A} (name : string) (result : option (Awaited A))
  : Awaited A :=
  match result with
  | Some r => r
  | None => Raised (Some (name ++ " is not a function"))
  end.

(** The call whose result the handler pushes as the constraint [k]. *)
Definition build (fs : FirestoreModule) (k : Constraint) : Awaited unit :=
  match k with
  | where_in field values =>
      call_of "where" (f ← exports_where fs; Some (f field values))
  | orderBy field dir =>
      call_of "orderBy" (f ← exports_orderBy fs; Some (f field dir))
  | limit n => call_of "limit" (f ← exports_limit fs; Some (f n))
  end.

(** The calls for the constraints of the array, in its order, up to the
    first that throws. *)
Fixpoint build_all (fs : FirestoreModule) (ks : list Constraint)
  : Awaited unit :=
  match ks with
  | [] => Returned tt
  | k :: rest => _ ← build fs k; build_all fs rest
  end.

(** The [try] block of [getFilteredProductsFromFirebase] after the
    authentication check, up to the documents of the snapshot. *)
Definition fetch_documents (fs : FirestoreModule) (req : Request)
  : Awaited (list Product) :=
  let constraints := firebase_constraints req in
  _ ← call_of "collection" (f ← exports_collection fs; Some (f "products"));
  _ ← build_all fs constraints;
  _ ← call_of "query" (f ← exports_query fs; Some (f constraints));
  call_of "getDocs" (f ← exports_getDocs fs; Some (f constraints)).

Definition getFilteredProductsFromFirebase (fs : FirestoreModule)
    (req : Request) : Response :=
  match verifyAuthentication req with
  | None =>
      {| res_status := 401;
         res_body := Failure "Authentication required to access products"
                       (Some "User not authenticated") |}
  | Some _ =>
      let page := default (Whole 1) (q_page req) in
      let pageLimit := default (Whole 20) (q_limit req) in
      match fetch_documents fs req with
      | Returned products =>
          let startIndex := num_mul (num_sub page (Whole 1)) pageLimit in
          let endIndex := num_add startIndex pageLimit in
          {| res_status := 200;
             res_body :=
               ProductPage (js_slice products startIndex endIndex)
                 (Z.of_nat (length products)) (json_number page)
                 (ceil_div (Z.of_nat (length products)) pageLimit) |}
      | Raised m =>
          {| res_status := 500;
             res_body := Failure "Failed to fetch products" m |}
      end
  end.

(** [await getDoc(doc(db, "products", id))]: [None] for a snapshot that
    does not exist. *)
Definition fetch_document (fs : FirestoreModule) (req : Request)
  : Awaited (option Product) :=
  _ ← call_of "doc" (f ← exports_doc fs; Some (f "products" (param_id req)));
  call_of "getDoc" (f ← exports_getDoc fs; Some (f (param_id req))).

Definition getProductDetailsFromFirebase (fs : FirestoreModule)
    (req : Request) : Response :=
  match verifyAuthentication req with
  | None =>
      {| res_status := 401;
         res_body :=
           Failure "Authentication required to access product details"
             (Some "User not authenticated") |}
  | Some _ =>
      match fetch_document fs req with
      | Returned (Some productDoc) =>
          {| res_status := 200; res_body := ProductDoc productDoc |}
      | Returned None =>
          {| res_status := 404;
             res_body := Failure "Product not found" None |}
      | Raised m =>
          {| res_status := 500;
             res_body := Failure "Failed to fetch product details" m |}
      end
  end.

(** The query object and sort order of the MongoDB handler. *)
Record MongoFilter := {
  in_category : option (list string);
  in_brand : option (list string)
}.

(** [if (v.length) filters.f = { $in: v.split(",") }]: an empty string or
    array adds no filter, a non-empty array has no [split] and throws. *)
Definition mongo_facet (q : option QueryValue)
  : Awaited (option (list string)) :=
  match q with
  | Some (QString s) =>
      if decide (s = "") then Returned None
      else Returned (Some (split_comma s))
  | Some (QArray l) =>
      if decide (0 < length l)%nat
      then Raised (Some "split is not a function")
      else Returned None
  | None => Returned None
  end.

(** The [switch (sortBy)] of the MongoDB handler: field and direction. *)
Definition sort_order (sortBy : string) : string * Z :=
  if decide (sortBy = "price-lowtohigh") then ("price", 1%Z)
  else if decide (sortBy = "price-hightolow") then ("price", (-1)%Z)
  else if decide (sortBy = "title-atoz") then ("title", 1%Z)
  else if decide (sortBy = "title-ztoa") then ("title", (-1)%Z)
  else ("price", 1%Z).

Section MongoHandlers.

(** The calls on the Mongoose model: [find(...).sort(...)] and
    [findById]. *)
Variable find : MongoFilter -> string * Z -> Awaited (list Product).
Variable findById : string -> Awaited (option Product).

Definition getFilteredProducts (req : Request) : Response :=
  let failed :=
    {| res_status := 500; res_body := Failure "Some error occured" None |} in
  match mongo_facet (q_category req) with
  | Returned c =>
      match mongo_facet (q_brand req) with
      | Returned b =>
          match find {| in_category := c; in_brand := b |}
                  (sort_order (default "price-lowtohigh" (q_sortBy req))) with
          | Returned products =>
              {| res_status := 200; res_body := ProductList products |}
          | Raised _ => failed
          end
      | Raised _ => failed
      end
  | Raised _ => failed
  end.

Definition getProductDetails (req : Request) : Response :=
  match findById (param_id req) with
  | Returned (Some product) =>
      {| res_status := 200; res_body := ProductDoc product |}
  | Returned None =>
      {| res_status := 404; res_body := Failure "Product not found!" None |}
  | Raised _ =>
      {| res_status := 500; res_body := Failure "Some error occured" None |}
  end.

End MongoHandlers.


(** ** Notions used to reason about the view *)

(** The two error effects have nothing to do, whatever their dependency
    arrays say: their guards are false. *)
Definition quiet (c : Listing) : Prop :=
  authError (store c) = None /\
  (firebaseError (store c) = None \/ fallbackMode c = true).

(** One commit of a quiet view: the set-up, address and fetch effects. *)
Definition view_commit (c : Listing) : Listing :=
  let v := render c in
  let prev := seen c in
  let c3 := if changed setup_deps prev v then setupEffect c else c in
  let c4 := if changed url_deps prev v then urlEffect v c3 else c3 in
  let c5 := if changed fetch_deps prev v then fetchProducts v c4 else c4 in
  set_seen v c5.

(** What every commit keeps: a sort order once set, and the filters being
    those of session storage. *)
Definition kept (c : Listing) : Prop :=
  is_Some (sort c) /\ filters c = default [] (session c).

(** In Primary mode a held error of type AUTH_ERROR or NOT_FOUND is a
    value of the details thunk: it tells of one product, not of the
    listing's source. *)
Definition harmless (c : Listing) : Prop :=
  fallbackMode c = false ->
  forall p, error (store c) = Some p ->
    type p = "AUTH_ERROR" \/ type p = "NOT_FOUND" ->
    exists e, fetchProductDetails_catch e = Some p.

(** What holds of the view whenever it is at rest after mounting: no
    authentication error is held, and in Primary mode no failure of the
    listing that is Unauthorized or NotFound; a sort order is set; the filters are
    those of session storage, and when they have a key the address shows
    their category. *)
Definition consistent (c : Listing) : Prop :=
  settled c /\
  quiet c /\
  is_Some (sort c) /\
  filters c = default [] (session c) /\
  (filters c <> [] -> categorySearchParam c = category_of_query (filters c)) /\
  harmless c.

(** The call [fetchProducts] makes for a mode, filters and a sort order. *)
Definition call_for (m : bool) (f : Filters) (s : string) : ThunkCall :=
  let arg := {| filterParams := f; sortParams := s |} in
  if m then fetchProductsFromMongoDB arg else fetchAllFilteredProducts arg.

(** ** What the classifier reads of a failure *)

(** [message] and [error] of the response body, when there are any. *)
Definition body_message (error : RequestError) : option string :=
  r ← err_response error; d ← data r; data_message d.

Definition body_error (error : RequestError) : option string :=
  r ← err_response error; d ← data r; data_error d.

(** The message each category carries. *)
Definition category_message (error : RequestError) (k : Category) : string :=
  match k with
  | Unauthorized =>
      or_else (body_message error) "Authentication required. Please log in."
  | NotFound => "Products not found"
  | ServerFault =>
      or_else (body_error error) "Server error while fetching products"
  | GenericApiFault => or_else (body_message error) "Failed to fetch products"
  | Timeout => "Request timeout. Please check your connection."
  | NetworkFault => or_else (err_message error) "Network error occurred"
  end.

(** The body of every response with an error status can be read. *)
Definition readable (error : RequestError) : Prop :=
  forall r, err_response error = Some r -> is_Some (data r).

(** A request that was aborted carries no response. *)
Definition aborted_without_response (error : RequestError) : Prop :=
  err_code error = Some "ECONNABORTED" -> err_response error = None.

(** An HTTP failure with the given status and body. *)
Definition http_error (st : Z) (body : option ResponseData) : RequestError :=
  {| err_response := Some {| status := st; data := body |};
     err_code := Some "ERR_BAD_RESPONSE";
     err_message := Some "Request failed" |}.

(** The error axios throws for a response of a handler. *)
Definition carries (e : RequestError) (r : Response) : Prop :=
  err_response e =
    Some {| status := res_status r;
            data := Some match res_body r with
                         | Failure m err =>
                             {| data_message := Some m; data_error := err |}
                         | _ => {| data_message := None; data_error := None |}
                         end |}.

(** ** Sample requests, answers and failures *)

Definition no_filters : FetchRequest :=
  {| filterParams := []; sortParams := "price-lowtohigh" |}.

Definition men_only : FetchRequest :=
  {| filterParams := [("category", ["men"])];
     sortParams := "price-lowtohigh" |}.

Definition shirt : Product :=
  {| id := "p1"; title := "Shirt"; price := 20; salePrice := 0;
     category := "men"; brand := "nike"; totalStock := 5;
     image := "shirt.png" |}.

Definition dress : Product :=
  {| id := "p2"; title := "Dress"; price := 35; salePrice := 30;
     category := "women"; brand := "zara"; totalStock := 12;
     image := "dress.png" |}.

Definition unauthorized_401 : RequestError :=
  http_error 401
    (Some {| data_message := Some "Authentication required to access products";
             data_error := Some "User not authenticated" |}).

Definition not_found_404 : RequestError :=
  http_error 404
    (Some {| data_message := Some "Route not found"; data_error := None |}).

Definition server_500 : RequestError :=
  http_error 500
    (Some {| data_message := Some "Failed to fetch products";
             data_error := Some "index missing" |}).

(** The view mounted on a page opened without a category, with nothing in
    session storage and a store in its initial state. *)
Definition fresh : Listing := mount initialState None None.

(** The view after its first fetch came back with a 404. *)
Definition in_fallback : Listing :=
  step fresh
    (CallSettled (fetchAllFilteredProducts no_filters) (Thrown not_found_404)).

(** The view after the backup fetch failed as well: the error state with
    the Switch to Primary button. *)
Definition backup_failed : Listing :=
  step in_fallback
    (CallSettled (fetchProductsFromMongoDB no_filters) (Thrown server_500)).

(** A module that exports every name the handlers destructure, with
    query builders that do not throw, over a database that answers as
    given. *)
Definition module_over
    (getDocs : list Constraint -> Awaited (list Product))
    (getDoc : string -> Awaited (option Product)) : FirestoreModule :=
  {| exports_collection := Some (fun _ => Returned tt);
     exports_where := Some (fun _ _ => Returned tt);
     exports_orderBy := Some (fun _ _ => Returned tt);
     exports_limit := Some (fun _ => Returned tt);
     exports_query := Some (fun _ => Returned tt);
     exports_getDocs := Some getDocs;
     exports_doc := Some (fun _ _ => Returned tt);
     exports_getDoc := Some getDoc |}.

(** A module that exports none of these names. *)
Definition module_without : FirestoreModule :=
  {| exports_collection := None; exports_where := None;
     exports_orderBy := None; exports_limit := None;
     exports_query := None; exports_getDocs := None; exports_doc := None;
     exports_getDoc := None |}.

(** An authenticated request without parameters. *)
Definition plain_request : Request :=
  {| req_user := Some {| user_id := Some "u1" |};
     q_category := None; q_brand := None; q_sortBy := None;
     q_page := None; q_limit := None; param_id := "p1" |}.


(** ** What the listing renders *)

(** The four conditional blocks of the product area. *)
Inductive Block := LoadingState | ErrorState | EmptyState | ProductGrid.

#[global] Instance Block_eq_dec : EqDecision Block.
Proof. solve_decision. Defined.

(** The blocks whose condition holds, in the order of the JSX. *)
Definition blocks (c : Listing) : list Block :=
  let s := store c in
  let has_error := bool_decide (is_Some (error s)) in
  let has_authError := bool_decide (is_Some (authError s)) in
  ((if isLoading s then [LoadingState] else []) ++
   (if negb (isLoading s) && has_error && negb has_authError
    then [ErrorState] else []) ++
   (if negb (isLoading s) && negb has_error &&
       bool_decide (length (productList s) = 0%nat)
    then [EmptyState] else []) ++
   (if negb (isLoading s) && negb has_error &&
       bool_decide (0 < length (productList s))%nat
    then [ProductGrid] else []))%list.

(** The Switch to Primary button is part of the error block. *)
Definition switch_button_shown (c : Listing) : bool :=
  bool_decide (ErrorState ∈ blocks c) && fallbackMode c.


(** ** The product tile and the cart guard *)

Inductive Badge := OutOfStock | OnlyLeft (n : Z) | Sale.

(** [getStockBadge]; every comparison on an absent product is false. *)
Definition getStockBadge (product : option Product) : option Badge :=
  match product with
  | Some p =>
      if decide (totalStock p = 0%Z) then Some OutOfStock
      else if decide (totalStock p < 10)%Z then Some (OnlyLeft (totalStock p))
      else if decide (salePrice p > 0)%Z then Some Sale
      else None
  | None => None
  end.

(** Whether the footer shows the Add to cart button. *)
Definition add_to_cart_shown (product : option Product) : bool :=
  match product with
  | Some p => negb (bool_decide (totalStock p = 0%Z))
  | None => true
  end.

Record CartItem := { productId : string; quantity : Z }.

(** What [handleAddtoCart] does: the destructive toast naming the quantity
    in the cart, or the dispatch of [addToCart] with quantity 1. *)
Inductive CartAction :=
  | OnlyQuantityToast (getQuantity : Z)
  | DispatchAddToCart (getCurrentProductId : string).

Definition handleAddtoCart (getCartItems : list CartItem)
    (getCurrentProductId : string) (getTotalStock : Z) : CartAction :=
  if decide (0 < length getCartItems)%nat then
    match list_find (fun item => productId item = getCurrentProductId)
            getCartItems with
    | Some (_, item) =>
        if decide (quantity item + 1 > getTotalStock)%Z
        then OnlyQuantityToast (quantity item)
        else DispatchAddToCart getCurrentProductId
    | None => DispatchAddToCart getCurrentProductId
    end
  else DispatchAddToCart getCurrentProductId.


(** ** Notions used to state the further properties *)

(** Whether a string holds a comma. *)
Fixpoint has_comma (s : string) : bool :=
  match s with
  | EmptyString => false
  | String a t => Ascii.eqb a ","%char || has_comma t
  end.

(** An option that survives the way through a query string. *)
Definition plain_option (x : string) : Prop :=
  x <> "" /\ has_comma x = false.

(** [1] and [-1] of a Mongoose sort for the two directions. *)
Definition direction_sign (d : Direction) : Z :=
  match d with asc => 1%Z | desc => (-1)%Z end.


(** What the view holds once the result of a listing call has been applied
    and the view is at rest, in the mode [m] it arrived in: the product
    list and the held error.  An Unauthorized failure is cleared after its
    toast, and a NotFound failure of the primary source in Primary mode by
    the start of the backup request. *)
Definition held_after (m : bool) (call : ThunkCall) (o : Outcome)
  : list Product * option RejectValue :=
  match o with
  | Resolved r => (default [] (payload_data r), None)
  | Thrown e =>
      ([],
       match call with
       | fetchProductsFromMongoDB _ => Some (fetchProductsFromMongoDB_catch e)
       | fetchAllFilteredProducts _ =>
           p ← fetchAllFilteredProducts_catch e;
           if decide (type p = "AUTH_ERROR") then None
           else if decide (type p = "NOT_FOUND" /\ m = false) then None
           else Some p
       end)
  end.

(** The constraints of the two facets, each cut to its first ten values. *)
Definition facet_constraints (req : Request) : list Constraint :=
  let categories := facet_values (q_category req) in
  let brands := facet_values (q_brand req) in
  ((if decide (categories = []) then []
    else [where_in "category" (take 10 categories)]) ++
   (if decide (brands = []) then []
    else [where_in "brand" (take 10 brands)]))%list.

(** * Properties *)

Open Scope list_scope.

(** ** Dependency arrays *)

Lemma changed_same {A} `{EqDecision A} (f : Deps -> A) d v :
  f d = f v -> changed f (Some d) v = false.
Proof. intros E. unfold changed. by rewrite bool_decide_eq_true_2. Qed.

Lemma changed_diff {A} `{EqDecision A} (f : Deps -> A) d v :
  f d <> f v -> changed f (Some d) v = true.
Proof. intros E. unfold changed. by rewrite bool_decide_eq_false_2. Qed.

Lemma set_seen_render c : settled c -> set_seen (render c) c = c.
Proof. unfold settled. destruct c; simpl. by intros ->. Qed.

Lemma render_set_seen d c : render (set_seen d c) = render c.
Proof. done. Qed.

Lemma seen_set_seen d c : seen (set_seen d c) = Some d.
Proof. done. Qed.

Lemma settled_set_seen c c' :
  render c' = render c -> settled (set_seen (render c) c').
Proof. intros H. unfold settled. by rewrite seen_set_seen, render_set_seen, H. Qed.

(** A commit of a view at rest changes nothing, so that [flush] is the
    repeated commit. *)
Lemma commit_settled c : settled c -> commit c = c.
Proof.
  intros Hs. unfold commit. cbv zeta. rewrite Hs.
  rewrite !changed_same by done. by apply set_seen_render.
Qed.

Lemma flush_settled n c : settled c -> flush n c = c.
Proof. intros H. destruct n; simpl; [done|]. by rewrite decide_True. Qed.

Lemma flush_commit n c : flush (S n) c = flush n (commit c).
Proof.
  simpl. destruct (decide (settled c)) as [Hs | Hs]; [|done].
  by rewrite (commit_settled c Hs), flush_settled.
Qed.

Lemma flush_reaches n c : settled (commit c) -> flush (S n) c = commit c.
Proof. intros H. by rewrite flush_commit, flush_settled. Qed.

(** ** What the effects touch *)

Lemma fetchProducts_frame v c :
  filters (fetchProducts v c) = filters c /\
  filters_ref (fetchProducts v c) = filters_ref c /\
  sort (fetchProducts v c) = sort c /\
  fallbackMode (fetchProducts v c) = fallbackMode c /\
  categorySearchParam (fetchProducts v c) = categorySearchParam c /\
  session (fetchProducts v c) = session c /\
  toasts (fetchProducts v c) = toasts c /\
  seen (fetchProducts v c) = seen c /\
  productList (store (fetchProducts v c)) = productList (store c).
Proof.
  unfold fetchProducts.
  destruct (d_sort v); [|done]. by destruct (d_fallbackMode v).
Qed.

Lemma fetchProducts_errors v c :
  (authError (store (fetchProducts v c)) = None \/
   authError (store (fetchProducts v c)) = authError (store c)) /\
  (firebaseError (store (fetchProducts v c)) = None \/
   firebaseError (store (fetchProducts v c)) = firebaseError (store c)) /\
  (error (store (fetchProducts v c)) = None \/
   error (store (fetchProducts v c)) = error (store c)).
Proof.
  unfold fetchProducts.
  destruct (d_sort v); [|by auto]. destruct (d_fallbackMode v); simpl; auto.
Qed.

Lemma fetchProducts_dispatched v c :
  dispatched (fetchProducts v c) =
  dispatched c ++
  match d_sort v with
  | Some s => [call_for (d_fallbackMode v) (d_filters v) s]
  | None => []
  end.
Proof.
  unfold fetchProducts, call_for. destruct (d_sort v); simpl.
  - by destruct (d_fallbackMode v).
  - by rewrite app_nil_r.
Qed.

Lemma fetchProducts_error v c :
  is_Some (d_sort v) -> error (store (fetchProducts v c)) = None.
Proof.
  intros [s Hs]. unfold fetchProducts. rewrite Hs.
  by destruct (d_fallbackMode v).
Qed.

Lemma fetchProducts_loading v c :
  is_Some (d_sort v) -> isLoading (store (fetchProducts v c)) = true.
Proof.
  intros [s Hs]. unfold fetchProducts. rewrite Hs.
  by destruct (d_fallbackMode v).
Qed.

(** A fetch made by a quiet view for its own mode leaves every value a
    render reads as it is. *)
Lemma fetchProducts_render v c :
  quiet c -> d_fallbackMode v = fallbackMode c ->
  render (fetchProducts v c) = render c /\ quiet (fetchProducts v c).
Proof.
  intros [Ha Hf] Hm. unfold fetchProducts, quiet, render.
  destruct (d_sort v); [|done]. rewrite Hm.
  destruct (fallbackMode c) eqn:E; simpl.
  - rewrite E. auto.
  - rewrite E, Ha. destruct Hf as [-> | ?]; [auto | done].
Qed.

(** An address that already shows the filters is rewritten to itself. *)
Lemma urlEffect_same v c :
  (d_filters v <> [] -> category_of_query (d_filters v) = categorySearchParam c) ->
  urlEffect v c = c.
Proof.
  intros H. unfold urlEffect. case_decide as Hk; [|done].
  unfold setSearchParams. rewrite H; [by destruct c|].
  intros E. rewrite E in Hk. simpl in Hk. lia.
Qed.

Lemma setupEffect_frame c :
  store (setupEffect c) = store c /\
  filters (setupEffect c) = default [] (session c) /\
  filters_ref (setupEffect c) = S (filters_ref c) /\
  sort (setupEffect c) = Some "price-lowtohigh" /\
  fallbackMode (setupEffect c) = fallbackMode c /\
  categorySearchParam (setupEffect c) = categorySearchParam c /\
  session (setupEffect c) = session c /\
  toasts (setupEffect c) = toasts c /\
  dispatched (setupEffect c) = dispatched c /\
  seen (setupEffect c) = seen c.
Proof. done. Qed.

(** ** Quiet views *)

Lemma commit_quiet c : quiet c -> commit c = view_commit c.
Proof.
  intros [Ha Hf]. unfold commit, view_commit. cbv zeta.
  assert (E1 : (if changed auth_deps (seen c) (render c)
                then authErrorEffect (render c) c else c) = c).
  { unfold authErrorEffect. cbn [render d_authError]. rewrite Ha.
    by destruct (changed auth_deps _ _). }
  rewrite E1. clear E1.
  assert (E2 : (if changed firebase_deps (seen c) (render c)
                then firebaseErrorEffect (render c) c else c) = c).
  { unfold firebaseErrorEffect. cbn [render d_firebaseError d_fallbackMode].
    destruct (changed firebase_deps _ _); [|done].
    destruct (firebaseError (store c)) eqn:E; [|done].
    destruct (fallbackMode c) eqn:E'; [done|].
    by destruct Hf. }
  by rewrite E2.
Qed.

Lemma quiet_set_seen d c : quiet c -> quiet (set_seen d c).
Proof. done. Qed.

(** ** How a quiet view comes to rest *)

Lemma set_seen_set_seen d d' c : set_seen d (set_seen d' c) = set_seen d c.
Proof. done. Qed.

Lemma setupEffect_set_seen d c :
  setupEffect (set_seen d c) = set_seen d (setupEffect c).
Proof. done. Qed.

Lemma urlEffect_set_seen v d c :
  urlEffect v (set_seen d c) = set_seen d (urlEffect v c).
Proof. unfold urlEffect. by case_decide. Qed.

Lemma fetchProducts_set_seen v d c :
  fetchProducts v (set_seen d c) = set_seen d (fetchProducts v c).
Proof.
  unfold fetchProducts. destruct (d_sort v); [|done].
  by destruct (d_fallbackMode v).
Qed.

(** Nothing to do: the commit only records what it saw. *)
Lemma flush_quiet_rest n c d :
  quiet c -> seen c = Some d ->
  setup_deps d = setup_deps (render c) ->
  url_deps d = url_deps (render c) ->
  fetch_deps d = fetch_deps (render c) ->
  flush (S n) c = set_seen (render c) c.
Proof.
  intros Hq Hd H1 H2 H3.
  assert (Hc : commit c = set_seen (render c) c).
  { rewrite (commit_quiet c Hq). unfold view_commit. cbv zeta.
    rewrite Hd, (changed_same setup_deps), (changed_same url_deps),
      (changed_same fetch_deps) by done. done. }
  rewrite flush_reaches; rewrite Hc; [done|]. by apply settled_set_seen.
Qed.

(** Only the fetch effect runs. *)
Lemma flush_quiet_fetch n c d :
  quiet c -> seen c = Some d ->
  setup_deps d = setup_deps (render c) ->
  url_deps d = url_deps (render c) ->
  fetch_deps d <> fetch_deps (render c) ->
  flush (S n) c = set_seen (render c) (fetchProducts (render c) c).
Proof.
  intros Hq Hd H1 H2 H3.
  assert (Hc : commit c = set_seen (render c) (fetchProducts (render c) c)).
  { rewrite (commit_quiet c Hq). unfold view_commit. cbv zeta.
    rewrite Hd, (changed_same setup_deps), (changed_same url_deps),
      (changed_diff fetch_deps) by done. done. }
  rewrite flush_reaches; rewrite Hc; [done|].
  apply settled_set_seen. by apply fetchProducts_render.
Qed.

Lemma url_deps_fetch_deps d v : url_deps d <> url_deps v -> fetch_deps d <> fetch_deps v.
Proof. unfold url_deps, fetch_deps. congruence. Qed.

(** New filters whose category the address already shows: the address
    effect rewrites the address to itself and the fetch effect runs. *)
Lemma flush_quiet_url n c d :
  quiet c -> seen c = Some d ->
  setup_deps d = setup_deps (render c) ->
  url_deps d <> url_deps (render c) ->
  (filters c <> [] -> category_of_query (filters c) = categorySearchParam c) ->
  flush (S n) c = set_seen (render c) (fetchProducts (render c) c).
Proof.
  intros Hq Hd H1 H2 H3.
  assert (Hc : commit c = set_seen (render c) (fetchProducts (render c) c)).
  { rewrite (commit_quiet c Hq). unfold view_commit. cbv zeta.
    rewrite Hd, (changed_same setup_deps), (changed_diff url_deps),
      (changed_diff fetch_deps) by (done || by apply url_deps_fetch_deps).
    by rewrite urlEffect_same. }
  rewrite flush_reaches; rewrite Hc; [done|].
  apply settled_set_seen. by apply fetchProducts_render.
Qed.

(** New filters with another category than the address shows: the address
    is rewritten and a request sent; the changed category parameter runs
    the set-up effect again, which resets the sort order and sets the
    filters of session storage anew; and these send a second request. *)
Lemma flush_quiet_url_setup n c d :
  quiet c -> seen c = Some d ->
  setup_deps d = setup_deps (render c) ->
  url_deps d <> url_deps (render c) ->
  filters c <> [] ->
  category_of_query (filters c) <> categorySearchParam c ->
  filters c = default [] (session c) ->
  flush (3 + n) c =
  let c1 := fetchProducts (render c) (setSearchParams (filters c) c) in
  let c2 := setupEffect c1 in
  set_seen (render c2) (fetchProducts (render c2) c2).
Proof.
  intros Hq Hd H1 H2 Hf Hcat Hsess. cbv zeta.
  set (c1 := fetchProducts (render c) (setSearchParams (filters c) c)).
  set (c2 := setupEffect c1).
  assert (Hu : urlEffect (render c) c = setSearchParams (filters c) c).
  { unfold urlEffect. cbn [render d_filters].
    rewrite decide_True; [done|]. destruct (filters c); [done | simpl; lia]. }
  assert (Hc : commit c = set_seen (render c) c1).
  { rewrite (commit_quiet c Hq). unfold view_commit. cbv zeta.
    rewrite Hd, (changed_same setup_deps), (changed_diff url_deps),
      (changed_diff fetch_deps) by (done || by apply url_deps_fetch_deps).
    by rewrite Hu. }
  assert (Hq0 : quiet (setSearchParams (filters c) c)) by done.
  destruct (fetchProducts_render (render c) _ Hq0 eq_refl) as [Hr1 Hq1].
  fold c1 in Hr1, Hq1.
  destruct (fetchProducts_frame (render c) (setSearchParams (filters c) c))
    as (F1 & F2 & F3 & F4 & F5 & F6 & _). fold c1 in F1, F2, F3, F4, F5, F6.
  (* second commit: the set-up effect *)
  assert (Hc1 : commit (set_seen (render c) c1) = set_seen (render c1) c2).
  { rewrite commit_quiet by done. unfold view_commit. cbv zeta.
    rewrite seen_set_seen, render_set_seen.
    rewrite (changed_diff setup_deps);
      [|unfold setup_deps; cbn [render d_categorySearchParam];
        rewrite F5; cbn [setSearchParams categorySearchParam]; congruence].
    rewrite (changed_same url_deps);
      [|unfold url_deps; cbn [render d_filters_ref]; by rewrite F2].
    rewrite (changed_same fetch_deps);
      [|unfold fetch_deps; cbn [render d_filters_ref d_sort d_fallbackMode];
        by rewrite F2, F3, F4].
    by rewrite setupEffect_set_seen, set_seen_set_seen. }
  (* third commit: the address and fetch effects *)
  assert (Hq2 : quiet c2) by done.
  assert (Hc2 : commit (set_seen (render c1) c2) =
                set_seen (render c2) (fetchProducts (render c2) c2)).
  { rewrite commit_quiet by done. unfold view_commit. cbv zeta.
    rewrite seen_set_seen, render_set_seen.
    rewrite (changed_same setup_deps) by done.
    rewrite (changed_diff url_deps);
      [|unfold url_deps; cbn [render d_filters_ref c2 setupEffect setFilters
          setSort filters_ref]; lia].
    rewrite (changed_diff fetch_deps);
      [|apply url_deps_fetch_deps; unfold url_deps;
        cbn [render d_filters_ref c2 setupEffect setFilters setSort
             filters_ref]; lia].
    rewrite urlEffect_set_seen, fetchProducts_set_seen, set_seen_set_seen.
    rewrite urlEffect_same; [done|].
    cbn [render d_filters c2 setupEffect setFilters setSort filters
         categorySearchParam session].
    rewrite F6, F5. cbn [setSearchParams session categorySearchParam].
    by rewrite <- Hsess. }
  change (3 + n)%nat with (S (S (S n))).
  rewrite flush_commit, Hc, flush_commit, Hc1, flush_reaches; rewrite Hc2;
    [done|].
  apply settled_set_seen. by apply fetchProducts_render.
Qed.

(** ** What re-rendering never touches *)

Lemma flush_preserves (P : Listing -> Prop) :
  (forall c, P c -> P (commit c)) -> forall n c, P c -> P (flush n c).
Proof.
  intros HP n. induction n as [|n IH]; intros c Hc; simpl; [done|].
  destruct (decide (settled c)); [done|]. apply IH, HP, Hc.
Qed.

Ltac commit_cases :=
  unfold commit, authErrorEffect, firebaseErrorEffect, setupEffect,
    urlEffect, fetchProducts; cbv zeta;
  repeat case_match; simpl in *; try done.

Lemma commit_productList c :
  productList (store (commit c)) = productList (store c).
Proof. commit_cases. Qed.

Lemma settle_productList c :
  productList (store (settle c)) = productList (store c).
Proof.
  apply (flush_preserves (fun x => productList (store x) = productList (store c)));
    [|done].
  intros x Hx. by rewrite commit_productList.
Qed.

Lemma commit_no_error c :
  error (store c) = None -> error (store (commit c)) = None.
Proof. commit_cases. Qed.

Lemma settle_no_error c :
  error (store c) = None -> error (store (settle c)) = None.
Proof.
  apply (flush_preserves (fun x => error (store x) = None)), commit_no_error.
Qed.

Lemma commit_fallback c : fallbackMode c = true -> fallbackMode (commit c) = true.
Proof. intros H. commit_cases; congruence. Qed.

Lemma settle_fallback c : fallbackMode c = true -> fallbackMode (settle c) = true.
Proof.
  apply (flush_preserves (fun x => fallbackMode x = true)), commit_fallback.
Qed.

Lemma commit_primary c :
  firebaseError (store c) = None /\ fallbackMode c = false ->
  firebaseError (store (commit c)) = None /\ fallbackMode (commit c) = false.
Proof. intros [H1 H2]. commit_cases; try congruence. Qed.

Lemma settle_primary c :
  firebaseError (store c) = None -> fallbackMode c = false ->
  fallbackMode (settle c) = false.
Proof.
  intros H1 H2.
  by apply (flush_preserves
              (fun x => firebaseError (store x) = None /\ fallbackMode x = false)
              commit_primary 4 c).
Qed.

Lemma authToast_not_switched e : authToast e <> switchedToast.
Proof. intros H. by apply (f_equal toast_title) in H. Qed.

Lemma commit_fallback_count c :
  fallbackMode c = true ->
  fallbackMode (commit c) = true /\ switched_count (commit c) = switched_count c.
Proof.
  intros H. split; [by apply commit_fallback|].
  commit_cases; try congruence; unfold switched_count; simpl;
    rewrite ?filter_app, ?filter_cons, ?filter_nil, ?length_app;
    repeat case_decide; simpl; try lia;
    try (exfalso; eapply authToast_not_switched; eassumption).
Qed.

Lemma settle_fallback_count c :
  fallbackMode c = true -> switched_count (settle c) = switched_count c.
Proof.
  intros H.
  apply (flush_preserves
           (fun x => fallbackMode x = true /\
                     switched_count x = switched_count c)); [|done].
  intros x [H1 H2]. destruct (commit_fallback_count x H1). split; congruence.
Qed.

Lemma commit_kept c : kept c -> kept (commit c).
Proof.
  intros (Hs & Hf). unfold kept.
  commit_cases; repeat split; try done; by eexists.
Qed.

(** ** The two reacting failures *)

Lemma reducer_rejected_auth s p :
  type p = "AUTH_ERROR" ->
  reducer s (fetchAllFilteredProducts_rejected (Some p)) =
  {| isLoading := false; productList := [];
     productDetails := productDetails s;
     error := Some p; firebaseError := firebaseError s;
     authError := Some p |}.
Proof. intros H. simpl. by rewrite bool_decide_eq_true_2. Qed.

Lemma reducer_rejected_not_found s p :
  type p = "NOT_FOUND" ->
  reducer s (fetchAllFilteredProducts_rejected (Some p)) =
  {| isLoading := false; productList := [];
     productDetails := productDetails s;
     error := Some p; firebaseError := Some p;
     authError := authError s |}.
Proof.
  intros H. simpl. rewrite bool_decide_eq_false_2; [|by rewrite H].
  by rewrite bool_decide_eq_true_2.
Qed.

Lemma reducer_rejected_other s payload :
  payload_type_is payload "AUTH_ERROR" = false ->
  payload_type_is payload "NOT_FOUND" = false ->
  reducer s (fetchAllFilteredProducts_rejected payload) =
  {| isLoading := false; productList := [];
     productDetails := productDetails s;
     error := payload; firebaseError := firebaseError s;
     authError := authError s |}.
Proof. intros H1 H2. cbn [reducer]. by rewrite H1, H2. Qed.

(** An [AUTH_ERROR] rejection: the toast is shown and every error slot is
    cleared again; nothing else reacts. *)
Lemma settle_auth_error c p :
  settled c -> authError (store c) = None -> type p = "AUTH_ERROR" ->
  let h := dispatch (fetchAllFilteredProducts_rejected (Some p)) c in
  let c1 := dispatch clearProductErrors (toast (authToast p) h) in
  settle h = set_seen (render c1) c1.
Proof.
  intros Hs Ha Hp h c1.
  assert (Hh : seen h = Some (render c)) by exact Hs.
  assert (Hstore : store h =
            reducer (store c) (fetchAllFilteredProducts_rejected (Some p)))
    by done.
  rewrite (reducer_rejected_auth _ _ Hp) in Hstore.
  assert (Hc : commit h = set_seen (render h) c1).
  { unfold commit. cbv zeta. rewrite Hh.
    rewrite (changed_diff auth_deps);
      [|unfold auth_deps; cbn [render d_authError]; rewrite Hstore, Ha; done].
    rewrite (changed_same firebase_deps);
      [|unfold firebase_deps; cbn [render d_firebaseError d_fallbackMode];
        by rewrite Hstore].
    rewrite (changed_same setup_deps), (changed_same url_deps),
      (changed_same fetch_deps) by done.
    unfold authErrorEffect. cbn [render d_authError]. by rewrite Hstore. }
  unfold settle. rewrite flush_commit, Hc.
  rewrite (flush_quiet_rest _ _ (render h)); try done.
  split; [done | by left].
Qed.

(** A [NOT_FOUND] rejection while [fallbackMode] is off: the view switches,
    shows the notice once and fetches again from the backup source. *)
Lemma settle_not_found c p :
  settled c -> authError (store c) = None -> fallbackMode c = false ->
  firebaseError (store c) = None -> type p = "NOT_FOUND" ->
  let h := dispatch (fetchAllFilteredProducts_rejected (Some p)) c in
  let c1 := toast switchedToast (setFallbackMode true h) in
  let c2 := fetchProducts (render c1) c1 in
  settle h = set_seen (render c2) c2.
Proof.
  intros Hs Ha Hm Hf Hp h c1 c2.
  assert (Hh : seen h = Some (render c)) by exact Hs.
  assert (Hstore : store h =
            reducer (store c) (fetchAllFilteredProducts_rejected (Some p)))
    by done.
  rewrite (reducer_rejected_not_found _ _ Hp) in Hstore.
  assert (Hc : commit h = set_seen (render h) c1).
  { unfold commit. cbv zeta. rewrite Hh.
    rewrite (changed_same auth_deps);
      [|unfold auth_deps; cbn [render d_authError]; by rewrite Hstore].
    rewrite (changed_diff firebase_deps);
      [|unfold firebase_deps; cbn [render d_firebaseError d_fallbackMode];
        rewrite Hstore, Hf; simpl; congruence].
    rewrite (changed_same setup_deps), (changed_same url_deps),
      (changed_same fetch_deps) by done.
    unfold firebaseErrorEffect. cbn [render d_firebaseError d_fallbackMode].
    rewrite Hstore. cbn [firebaseError].
    change (fallbackMode h) with (fallbackMode c). by rewrite Hm. }
  assert (Hq1 : quiet c1).
  { split; [|by right]. change (authError (store h) = None).
    by rewrite Hstore. }
  unfold settle. rewrite flush_commit, Hc.
  rewrite (flush_quiet_fetch _ _ (render h)); try done.
  - rewrite render_set_seen, fetchProducts_set_seen, set_seen_set_seen.
    fold c2. f_equal. symmetry. by apply fetchProducts_render.
  - intros E. apply (f_equal snd) in E. unfold fetch_deps in E.
    cbn [snd render d_fallbackMode] in E.
    change (fallbackMode c = true) in E. congruence.
Qed.

(** An action that leaves the slots the effects watch alone leaves a view
    at rest as it is. *)
Lemma step_unwatched c a :
  settled c ->
  authError (reducer (store c) a) = authError (store c) ->
  firebaseError (reducer (store c) a) = firebaseError (store c) ->
  settle (dispatch a c) = dispatch a c.
Proof.
  intros Hs Ha Hf. apply flush_settled. unfold settled, render, dispatch.
  cbn [store set_store seen fallbackMode filters filters_ref sort
       categorySearchParam]. rewrite Ha, Hf.
  exact Hs.
Qed.

(** ** The view at rest *)

Lemma consistent_form x :
  quiet x -> kept x ->
  (filters x <> [] -> categorySearchParam x = category_of_query (filters x)) ->
  harmless x ->
  consistent (set_seen (render x) x).
Proof.
  intros Hq (Hs & Hf) Hc He. split; [by apply settled_set_seen|]. done.
Qed.

Lemma fetchProducts_kept v c : kept c -> kept (fetchProducts v c).
Proof.
  intros (Hs & Hf).
  destruct (fetchProducts_frame v c) as (F1 & _ & F3 & _ & _ & F6 & _).
  unfold kept. by rewrite F1, F3, F6.
Qed.

Lemma fetchProducts_harmless v c :
  is_Some (d_sort v) -> harmless (fetchProducts v c).
Proof. intros Hs _ p. by rewrite (fetchProducts_error v c Hs). Qed.

Lemma consistent_refetched x :
  quiet x -> kept x ->
  (filters x <> [] -> categorySearchParam x = category_of_query (filters x)) ->
  consistent (set_seen (render x) (fetchProducts (render x) x)).
Proof.
  intros Hq Hk Hc.
  destruct (fetchProducts_render (render x) x Hq eq_refl) as [Hr Hq'].
  set (y := fetchProducts (render x) x) in *.
  rewrite <- Hr. apply consistent_form; [done | by apply fetchProducts_kept| |].
  - destruct (fetchProducts_frame (render x) x) as (F1 & _ & _ & _ & F5 & _).
    fold y in F1, F5. by rewrite F1, F5.
  - apply fetchProducts_harmless. by destruct Hk.
Qed.

(** A quiet view that the last commit saw with the same category
    parameter, and with its current filters shown in the address unless
    they are new, settles into a consistent one within three commits. *)
Lemma consistent_flush_quiet n h d :
  seen h = Some d -> quiet h -> kept h ->
  setup_deps d = categorySearchParam h ->
  (url_deps d = filters_ref h -> filters h <> [] ->
   categorySearchParam h = category_of_query (filters h)) ->
  (url_deps d = filters_ref h -> harmless h) ->
  consistent (flush (3 + n) h).
Proof.
  intros Hd Hq Hk H1 Hsame Hharm.
  change (3 + n)%nat with (S (2 + n)).
  destruct (decide (url_deps d = filters_ref h)) as [H2 | H2].
  - destruct (decide (fetch_deps d = fetch_deps (render h))) as [H3 | H3].
    + rewrite (flush_quiet_rest _ _ _ Hq Hd H1 H2 H3).
      apply consistent_form; auto.
    + rewrite (flush_quiet_fetch _ _ _ Hq Hd H1 H2 H3).
      apply consistent_refetched; auto.
  - destruct (decide (filters h <> [] /\
                      category_of_query (filters h) <> categorySearchParam h))
      as [[Hf Hne] | Hno].
    + destruct Hk as (Hsort & Hsess).
      change (S (2 + n)) with (3 + n)%nat.
      rewrite (flush_quiet_url_setup n _ _ Hq Hd H1 H2 Hf Hne Hsess).
      cbv zeta.
      set (c1 := fetchProducts (render h) (setSearchParams (filters h) h)).
      set (c2 := setupEffect c1).
      assert (Hq0 : quiet (setSearchParams (filters h) h)) by done.
      destruct (fetchProducts_render (render h) _ Hq0 eq_refl) as [_ Hq1].
      destruct (fetchProducts_frame (render h) (setSearchParams (filters h) h))
        as (F1 & _ & _ & _ & F5 & F6 & _).
      fold c1 in Hq1, F1, F5, F6.
      apply consistent_refetched; [done | |].
      * split; [by eexists | done].
      * intros _. cbn [c2 setupEffect setFilters setSort filters
          categorySearchParam session]. rewrite F5, F6.
        cbn [setSearchParams categorySearchParam session].
        by rewrite <- Hsess.
    + assert (Hc' : filters h <> [] ->
                    category_of_query (filters h) = categorySearchParam h).
      { intros Hf. destruct (decide (category_of_query (filters h) =
                                     categorySearchParam h)); [done|].
        destruct Hno. by split. }
      rewrite (flush_quiet_url _ _ _ Hq Hd H1 H2 Hc').
      apply consistent_refetched; try done. intros Hf. symmetry. by apply Hc'.
Qed.

Lemma consistent_settle_quiet c h :
  consistent c -> seen h = seen c -> quiet h -> kept h -> harmless h ->
  categorySearchParam h = categorySearchParam c ->
  (filters_ref h = filters_ref c -> filters h = filters c) ->
  consistent (settle h).
Proof.
  intros (Hs & _ & _ & _ & Hc & _) Hseen Hq Hk Hh Hcat Hsame.
  apply (consistent_flush_quiet 1 h (render c)); try done.
  - by rewrite Hseen.
  - unfold url_deps. cbn [render d_filters_ref]. intros Hr.
    rewrite (Hsame (eq_sym Hr)), Hcat. exact Hc.
Qed.

(** ** Payloads of the thunks *)

Lemma payload_cases (payload : option RejectValue) :
  (exists p, payload = Some p /\ type p = "AUTH_ERROR") \/
  (exists p, payload = Some p /\ type p = "NOT_FOUND") \/
  (payload_type_is payload "AUTH_ERROR" = false /\
   payload_type_is payload "NOT_FOUND" = false).
Proof.
  destruct payload as [p|]; [|by right; right].
  destruct (decide (type p = "AUTH_ERROR")) as [H | H]; [left; by exists p|].
  destruct (decide (type p = "NOT_FOUND")) as [H' | H'].
  - right; left; by exists p.
  - right; right. simpl. by rewrite !bool_decide_eq_false_2.
Qed.

Lemma payload_type_is_false payload t p :
  payload_type_is payload t = false -> payload = Some p -> type p <> t.
Proof. intros H ->. simpl in H. by apply bool_decide_eq_false in H. Qed.

Lemma details_catch_code e p :
  fetchProductDetails_catch e = Some p -> code p <> "PRODUCTS_NOT_FOUND".
Proof.
  unfold fetchProductDetails_catch.
  destruct (err_response e) as [[st [d|]]|]; simpl;
    repeat case_decide; intros [= <-]; done.
Qed.

(** ** Every state between events is consistent *)

Lemma consistent_step c ev : consistent c -> consistent (step c ev).
Proof.
  intros Hcons.
  pose proof Hcons as (Hs & [Ha Hf] & Hsort & Hsess & Hc & He).
  assert (Hk : kept c) by done.
  unfold step.
  destruct ev as [call o | | | | sectionId opt | value | i | o].
  - destruct call as [arg | arg], o as [r | e]; cbn [handle settled_action].
    + apply (consistent_settle_quiet c); try done.
    + destruct (payload_cases (fetchAllFilteredProducts_catch e))
        as [(p & Hp & Ht) | [(p & Hp & Ht) | [H1 H2]]].
      * rewrite Hp, (settle_auth_error c p Hs Ha Ht).
        apply consistent_form; try done. split; [done | by left].
      * rewrite Hp. destruct (decide (fallbackMode c = true)) as [Hm | Hm].
        -- apply (consistent_settle_quiet c); try done.
           ++ split; [|by right]. unfold dispatch. cbn [store set_store].
              by rewrite (reducer_rejected_not_found _ _ Ht).
           ++ intros Hm'. change (fallbackMode c = false) in Hm'. congruence.
        -- apply not_true_is_false in Hm.
           assert (Hf' : firebaseError (store c) = None) by
             (by destruct Hf as [? | ?]; [|congruence]).
           rewrite (settle_not_found c p Hs Ha Hm Hf' Ht). cbv zeta.
           set (h := dispatch (fetchAllFilteredProducts_rejected (Some p)) c).
           set (c1 := toast switchedToast (setFallbackMode true h)).
           assert (Hq1 : quiet c1).
           { split; [|by right]. unfold c1, h, dispatch.
             cbn [store set_store toast setFallbackMode].
             by rewrite (reducer_rejected_not_found _ _ Ht). }
           destruct (fetchProducts_render (render c1) c1 Hq1 eq_refl)
             as [Hr Hq2].
           destruct (fetchProducts_frame (render c1) c1)
             as (F1 & _ & _ & _ & F5 & _).
           apply consistent_form; [done| | |].
           ++ by apply fetchProducts_kept.
           ++ rewrite F1, F5. exact Hc.
           ++ by apply fetchProducts_harmless.
      * apply (consistent_settle_quiet c); try done.
        -- split; unfold dispatch; cbn [store set_store];
             by rewrite (reducer_rejected_other _ _ H1 H2).
        -- intros _ p. unfold dispatch. cbn [store set_store].
           rewrite (reducer_rejected_other _ _ H1 H2). cbn [error].
           intros Hp [Ht | Ht].
           ++ by destruct (payload_type_is_false _ _ p H1 Hp).
           ++ by destruct (payload_type_is_false _ _ p H2 Hp).
    + apply (consistent_settle_quiet c); try done.
    + apply (consistent_settle_quiet c); try done.
      intros _ p [= <-] [Ht | Ht]; done.
  - (* Try Again *)
    destruct (fetchProducts_render (render c) c (conj Ha Hf) eq_refl)
      as [Hr Hq].
    destruct (fetchProducts_frame (render c) c)
      as (F1 & F2 & _ & _ & F5 & _ & _ & F8 & _).
    apply (consistent_settle_quiet c); cbn [handle]; try done;
      try (by apply fetchProducts_kept);
      try (by apply fetchProducts_harmless).
  - (* Switch to Primary *)
    cbn [handle]. unfold handleRetryWithFirebase.
    set (c0 := dispatch clearProductErrors (setFallbackMode false c)).
    destruct (fetchProducts_errors (render c) c0) as (A & F & _).
    destruct (fetchProducts_frame (render c) c0)
      as (F1 & F2 & _ & _ & F5 & _ & _ & F8 & _).
    apply (consistent_settle_quiet c); try done;
      try (by apply fetchProducts_kept);
      try (by apply fetchProducts_harmless).
    split; [by destruct A as [-> | ->] | left; by destruct F as [-> | ->]].
  - apply (consistent_settle_quiet c); try done. split; [done | by left].
  - apply (consistent_settle_quiet c); try done.
    cbn [handle handleFilter set_session setFilters filters_ref]. lia.
  - apply (consistent_settle_quiet c); try done.
  - apply (consistent_settle_quiet c); try done.
  - destruct o as [r | e]; cbn [handle details_settled_action].
    + apply (consistent_settle_quiet c); try done.
    + apply (consistent_settle_quiet c); try done.
      intros _ p Hp _. by exists e.
Qed.

(** The first commit of a mounting view: the error effects react to what
    the store holds, the set-up effect sets sort order and filters. *)
Lemma commit_unmounted s stored address :
  let u := unmounted s stored address in
  commit u =
  set_seen (render u)
    (setupEffect (firebaseErrorEffect (render u) (authErrorEffect (render u) u))).
Proof. done. Qed.

Ltac first_commit_cases s :=
  unfold quiet, kept, harmless, url_deps, firebaseErrorEffect,
    authErrorEffect; simpl;
  destruct (authError s) eqn:?, (firebaseError s) eqn:?; simpl;
  repeat match goal with H : _ = _ |- _ => rewrite ?H end.

Lemma quiet_first_commit s stored address :
  let u := unmounted s stored address in
  quiet (setupEffect (firebaseErrorEffect (render u)
                        (authErrorEffect (render u) u))).
Proof. cbv zeta. first_commit_cases s; split; auto. Qed.

Lemma consistent_mount s stored address :
  consistent (mount s stored address).
Proof.
  unfold mount, settle. rewrite flush_commit, commit_unmounted. cbv zeta.
  apply (consistent_flush_quiet 0 _ (render (unmounted s stored address)));
    try done; try (by apply quiet_set_seen, quiet_first_commit);
    unfold setup_deps; first_commit_cases s; repeat split; try done;
    try (by eexists); try lia.
Qed.

Lemma reachable_consistent c : reachable c -> consistent c.
Proof.
  induction 1; [apply consistent_mount | by apply consistent_step].
Qed.

(** ** Categories and payload types *)

Lemma categoryOf_Unauthorized p :
  categoryOf p = Some Unauthorized <-> type p = "AUTH_ERROR".
Proof. unfold categoryOf. repeat case_decide; split; congruence. Qed.

Lemma categoryOf_NotFound p :
  categoryOf p = Some NotFound <-> type p = "NOT_FOUND".
Proof. unfold categoryOf. repeat case_decide; split; congruence. Qed.

Lemma categoryOf_other p k :
  categoryOf p = Some k ->
  k ∈ [ServerFault; Timeout; NetworkFault; GenericApiFault] ->
  type p <> "AUTH_ERROR" /\ type p <> "NOT_FOUND".
Proof.
  intros Hk Hin. split; intros Ht.
  - apply categoryOf_Unauthorized in Ht. rewrite Ht in Hk.
    injection Hk as <-.
    rewrite !elem_of_cons, elem_of_nil in Hin. intuition congruence.
  - apply categoryOf_NotFound in Ht. rewrite Ht in Hk.
    injection Hk as <-.
    rewrite !elem_of_cons, elem_of_nil in Hin. intuition congruence.
Qed.

(** ** While in backup mode *)

Lemma handle_frame ev c :
  ev <> SwitchToPrimary ->
  fallbackMode (handle ev c) = fallbackMode c /\
  toasts (handle ev c) = toasts c.
Proof.
  destruct ev; try done. intros _.
  destruct (fetchProducts_frame (render c) c)
    as (_ & _ & _ & ? & _ & _ & ? & _).
  done.
Qed.

Lemma step_fallback_quiet c ev :
  fallbackMode c = true -> ev <> SwitchToPrimary ->
  fallbackMode (step c ev) = true /\
  switched_count (step c ev) = switched_count c.
Proof.
  intros Hm Hev. destruct (handle_frame ev c Hev) as [Hf Ht].
  unfold step. split.
  - apply settle_fallback. congruence.
  - rewrite settle_fallback_count by congruence.
    unfold switched_count. by rewrite Ht.
Qed.

Lemma run_fallback_quiet evs c :
  fallbackMode c = true -> SwitchToPrimary ∉ evs ->
  fallbackMode (run c evs) = true /\
  switched_count (run c evs) = switched_count c.
Proof.
  revert c. induction evs as [|ev evs IH]; intros c Hm Hn; [done|].
  apply not_elem_of_cons in Hn as [Hev Hn].
  destruct (step_fallback_quiet c ev Hm) as [H1 H2]; [done|].
  destruct (IH (step c ev) H1 Hn) as [H3 H4].
  split; [exact H3|]. cbn [run fold_left] in *. unfold run in H4. congruence.
Qed.

Lemma mode_primary c : mode c = Primary <-> fallbackMode c = false.
Proof. unfold mode. by destruct (fallbackMode c). Qed.

Lemma mode_fallback c : mode c = Fallback <-> fallbackMode c = true.
Proof. unfold mode. by destruct (fallbackMode c). Qed.

Lemma reachable_fresh : reachable fresh.
Proof. apply reachable_mount. Qed.

Lemma reachable_in_fallback : reachable in_fallback.
Proof. apply reachable_step, reachable_fresh. Qed.

Lemma reachable_backup_failed : reachable backup_failed.
Proof. apply reachable_step, reachable_in_fallback. Qed.

(** ** Coming to rest after an event *)

(** A quiet view whose dependency arrays all read as before comes to rest
    as it is. *)
Lemma settle_store_only c h :
  settled c -> seen h = seen c -> quiet h ->
  setup_deps (render c) = setup_deps (render h) ->
  url_deps (render c) = url_deps (render h) ->
  fetch_deps (render c) = fetch_deps (render h) ->
  settle h = set_seen (render h) h.
Proof.
  intros Hs Hseen Hq H1 H2 H3. unfold settle.
  apply (flush_quiet_rest 3 h (render c)); try done. by rewrite Hseen.
Qed.

(** A quiet view of which only the sort order or the mode changed fetches
    once more and is at rest. *)
Lemma settle_refetch c h :
  settled c -> seen h = seen c -> quiet h ->
  setup_deps (render c) = setup_deps (render h) ->
  url_deps (render c) = url_deps (render h) ->
  fetch_deps (render c) <> fetch_deps (render h) ->
  settle h = set_seen (render h) (fetchProducts (render h) h).
Proof.
  intros Hs Hseen Hq H1 H2 H3. unfold settle.
  apply (flush_quiet_fetch 3 h (render c)); try done. by rewrite Hseen.
Qed.

(** The requests Switch to Primary leads to. *)
Lemma retry_dispatched c s :
  consistent c -> sort c = Some s ->
  let arg := {| filterParams := filters c; sortParams := s |} in
  dispatched (step c SwitchToPrimary) =
  dispatched c ++
  (if fallbackMode c
   then [fetchProductsFromMongoDB arg; fetchAllFilteredProducts arg]
   else [fetchAllFilteredProducts arg]).
Proof.
  intros (Hs & [Ha Hf] & _) Hsort arg.
  set (c0 := dispatch clearProductErrors (setFallbackMode false c)).
  set (h := fetchProducts (render c) c0).
  destruct (fetchProducts_frame (render c) c0)
    as (E1 & E2 & E3 & E4 & E5 & _ & _ & E8 & _).
  destruct (fetchProducts_errors (render c) c0) as (A & F & _).
  fold h in E1, E2, E3, E4, E5, E8, A, F.
  assert (Hq : quiet h).
  { split; [by destruct A as [-> | ->] | left; by destruct F as [-> | ->]]. }
  assert (Hd : dispatched h =
               dispatched c ++ [call_for (fallbackMode c) (filters c) s]).
  { unfold h. rewrite fetchProducts_dispatched.
    cbn [render d_sort d_filters d_fallbackMode]. by rewrite Hsort. }
  assert (S1 : setup_deps (render c) = setup_deps (render h)).
  { unfold setup_deps. cbn [render d_categorySearchParam]. by rewrite E5. }
  assert (S2 : url_deps (render c) = url_deps (render h)).
  { unfold url_deps. cbn [render d_filters_ref]. by rewrite E2. }
  unfold step. cbn [handle]. unfold handleRetryWithFirebase. fold c0 h.
  destruct (fallbackMode c) eqn:Hm.
  - rewrite (settle_refetch c h Hs E8 Hq S1 S2).
    + cbn [dispatched set_seen]. rewrite fetchProducts_dispatched, Hd.
      cbn [render d_sort d_filters d_fallbackMode]. rewrite E1, E3, E4.
      cbn [c0 dispatch set_store setFallbackMode fallbackMode filters sort].
      rewrite Hsort. unfold call_for. by rewrite <- app_assoc.
    + unfold fetch_deps. cbn [render d_sort d_filters_ref d_fallbackMode].
      rewrite E4. cbn [c0 dispatch set_store setFallbackMode fallbackMode].
      rewrite Hm. congruence.
  - rewrite (settle_store_only c h Hs E8 Hq S1 S2); [done|].
    unfold fetch_deps. cbn [render d_sort d_filters_ref d_fallbackMode].
    rewrite E2, E3, E4. cbn [c0 dispatch set_store setFallbackMode
      fallbackMode filters_ref sort]. by rewrite Hm.
Qed.

(** ** The claims about the acquisition path *)

(** C1, as the claim words it, fails for Unauthorized: after a 401 on the
    first fetch the view is still in Primary mode and no switch notice was
    shown. *)
Lemma C1_unauthorized_does_not_switch :
  let c := fresh in
  let c' := step c (CallSettled (fetchAllFilteredProducts no_filters)
                      (Thrown unauthorized_401)) in
  mode c = Primary /\
  (exists p, fetchAllFilteredProducts_catch unauthorized_401 = Some p /\
             categoryOf p = Some Unauthorized) /\
  mode c' = Primary /\ switched_count c' = 0.
Proof.
  cbv zeta. split; [vm_compute; reflexivity|]. split.
  - eexists. split; vm_compute; reflexivity.
  - split; vm_compute; reflexivity.
Qed.

(** C1 (amended): in Primary mode a failed primary fetch classified as
    NotFound switches the view to Fallback and shows the switch notice
    exactly once, and no further switch notice is shown, nor is Fallback
    left, by any sequence of events without a press of Switch to Primary.
    A failure classified as Unauthorized does not switch: the view stays in
    Primary, shows the Authentication Required toast instead, and clears
    the held error. *)
Theorem C1_primary_failure c arg e p :
  reachable c -> mode c = Primary ->
  fetchAllFilteredProducts_catch e = Some p ->
  let c' := step c (CallSettled (fetchAllFilteredProducts arg) (Thrown e)) in
  (categoryOf p = Some NotFound ->
     mode c' = Fallback /\
     toasts c' = toasts c ++ [switchedToast] /\
     switched_count c' = S (switched_count c) /\
     forall evs, SwitchToPrimary ∉ evs ->
       mode (run c' evs) = Fallback /\
       switched_count (run c' evs) = switched_count c') /\
  (categoryOf p = Some Unauthorized ->
     mode c' = Primary /\
     toasts c' = toasts c ++ [authToast p] /\
     switched_count c' = switched_count c /\
     currentError c' = None).
Proof.
  intros Hr Hm He c'.
  destruct (reachable_consistent c Hr) as (Hs & [Ha Hf] & _).
  apply mode_primary in Hm.
  assert (Hf' : firebaseError (store c) = None) by
    (by destruct Hf as [? | ?]; [|congruence]).
  split; intros Hk.
  - apply categoryOf_NotFound in Hk.
    assert (Hc' : fallbackMode c' = true /\
                  toasts c' = toasts c ++ [switchedToast]).
    { unfold c', step. cbn [handle settled_action]. rewrite He.
      rewrite (settle_not_found c p Hs Ha Hm Hf' Hk).
      match goal with
      | |- context [fetchProducts ?v ?x] =>
          destruct (fetchProducts_frame v x)
            as (_ & _ & _ & Em & _ & _ & Et & _)
      end.
      cbn [fallbackMode toasts set_seen]. rewrite Em, Et. done. }
    destruct Hc' as [Hm' Ht'].
    assert (Hn : switched_count c' = S (switched_count c)).
    { unfold switched_count. rewrite Ht', filter_app, length_app.
      rewrite filter_cons, filter_nil, decide_True by done. simpl. lia. }
    split; [by apply mode_fallback|]. split; [done|]. split; [done|].
    intros evs Hevs.
    destruct (run_fallback_quiet evs c' Hm' Hevs) as [H1 H2].
    split; [by apply mode_fallback | done].
  - apply categoryOf_Unauthorized in Hk.
    assert (Hc' : fallbackMode c' = false /\
                  toasts c' = toasts c ++ [authToast p] /\
                  error (store c') = None).
    { unfold c', step. cbn [handle settled_action]. rewrite He.
      rewrite (settle_auth_error c p Hs Ha Hk). done. }
    destruct Hc' as (Hm' & Ht' & He').
    split; [by apply mode_primary|]. split; [done|].
    split; [|done].
    unfold switched_count. rewrite Ht', filter_app, length_app.
    rewrite filter_cons, filter_nil, decide_False
      by apply authToast_not_switched.
    simpl. lia.
Qed.

Lemma C1_primary_failure_witness :
  reachable fresh /\ mode fresh = Primary /\
  (let c' := step fresh
               (CallSettled (fetchAllFilteredProducts no_filters)
                  (Thrown not_found_404)) in
   mode c' = Fallback /\ switched_count c' = 1).
Proof.
  split; [apply reachable_fresh|]. split; [reflexivity|].
  destruct (C1_primary_failure fresh no_filters not_found_404
              {| type := "NOT_FOUND"; message := "Products not found";
                 code := "PRODUCTS_NOT_FOUND" |}
              reachable_fresh eq_refl eq_refl) as [H _].
  destruct (H eq_refl) as (H1 & _ & H3 & _). split; [exact H1 | exact H3].
Defined.

(** What a view at rest holds once the result of a listing call has been
    applied. *)
Lemma arrival_applied c call o :
  consistent c ->
  (productList (store (step c (CallSettled call o))),
   currentError (step c (CallSettled call o))) =
  held_after (fallbackMode c) call o.
Proof.
  intros (Hs & [Ha Hf] & Hsort & _).
  unfold step, currentError. rewrite settle_productList.
  cbn [handle]. destruct o as [r | e]; cbn [held_after].
  - f_equal; [by destruct call|]. apply settle_no_error. by destruct call.
  - destruct call as [arg | arg]; cbn [settled_action].
    + destruct (payload_cases (fetchAllFilteredProducts_catch e))
        as [(p & Hp & Ht) | [(p & Hp & Ht) | [H1 H2]]].
      * rewrite Hp. cbn [mbind option_bind]. rewrite decide_True by done.
        rewrite (settle_auth_error c p Hs Ha Ht).
        unfold dispatch, toast, set_seen. cbn [store set_store].
        by rewrite (reducer_rejected_auth _ _ Ht).
      * rewrite Hp. cbn [mbind option_bind].
        rewrite decide_False by (rewrite Ht; done).
        unfold dispatch at 1. cbn [store set_store].
        rewrite (reducer_rejected_not_found _ _ Ht). cbn [productList].
        destruct (fallbackMode c) eqn:Hm.
        -- rewrite decide_False by (intros [_ ?]; done).
           rewrite (settle_store_only c); try done.
           ++ cbn [store set_seen dispatch set_store].
              by rewrite (reducer_rejected_not_found _ _ Ht).
           ++ split; [|by right]. unfold dispatch. cbn [store set_store].
              by rewrite (reducer_rejected_not_found _ _ Ht).
        -- rewrite decide_True by done.
           assert (Hf' : firebaseError (store c) = None) by
             (by destruct Hf as [? | ?]).
           rewrite (settle_not_found c p Hs Ha Hm Hf' Ht). cbv zeta.
           cbn [store set_seen]. f_equal.
           apply fetchProducts_error.
           cbn [render d_sort toast setFallbackMode dispatch set_store sort].
           exact Hsort.
      * assert (Hr := reducer_rejected_other (store c) _ H1 H2).
        rewrite step_unwatched by (done || by rewrite Hr).
        unfold dispatch. cbn [store set_store]. rewrite Hr.
        cbn [productList error]. f_equal.
        destruct (fetchAllFilteredProducts_catch e) as [p|]; [|done].
        cbn [mbind option_bind].
        rewrite decide_False by (by apply (payload_type_is_false _ _ p H1)).
        rewrite decide_False; [done|]. intros [Ht _].
        by apply (payload_type_is_false _ _ p H2 eq_refl).
    + by rewrite step_unwatched.
Qed.

(** C2, as the claim words it, fails: the view issues fetch A on mount and
    fetch B, twice, when a category is picked; B's answers arrive first
    and A's afterwards, and the list then shows A's answer. *)
Lemma C2_stale_answer_overwrites :
  let A := fetchAllFilteredProducts no_filters in
  let B := fetchAllFilteredProducts men_only in
  let issued := run fresh [FilterClicked "category" "men"] in
  let final := run issued
                 [CallSettled B (Resolved {| payload_data := Some [shirt] |});
                  CallSettled B (Resolved {| payload_data := Some [shirt] |});
                  CallSettled A (Resolved {| payload_data := Some [dress] |})] in
  dispatched issued = [A; B; B] /\
  productList (store final) = [dress] /\
  productList (store final) <> [shirt].
Proof.
  cbv zeta. split; [vm_compute; reflexivity|].
  split; [vm_compute; reflexivity|]. vm_compute. discriminate.
Qed.

(** C2 (amended): the slice keeps no record of which request is the
    latest; every result that arrives is applied, whichever call it belongs
    to.  For any two results arriving one after the other, whatever the
    first one was, the product list and the held error are those of the
    second: after a success its records and no error; after a failure the
    empty list and the error of the failure, which the view clears again
    when it is Unauthorized or, in Primary mode, NotFound. *)
Theorem C2_last_arrival_wins c first o1 second o2 :
  reachable c ->
  let c1 := step c (CallSettled first o1) in
  let c2 := step c1 (CallSettled second o2) in
  (productList (store c2), currentError c2) =
  held_after (fallbackMode c1) second o2.
Proof.
  intros Hr c1 c2. apply arrival_applied, reachable_consistent.
  by apply reachable_step.
Qed.

Lemma C2_last_arrival_wins_witness :
  let A := fetchAllFilteredProducts no_filters in
  let B := fetchAllFilteredProducts men_only in
  let c2 := run fresh
              [CallSettled B (Resolved {| payload_data := Some [shirt] |});
               CallSettled A (Thrown server_500)] in
  reachable fresh /\
  (productList (store c2), currentError c2) =
  ([], Some {| type := "SERVER_ERROR"; message := "index missing";
               code := "SERVER_ERROR" |}).
Proof.
  cbv zeta. split; [apply reachable_fresh|].
  exact (C2_last_arrival_wins fresh (fetchAllFilteredProducts men_only)
           (Resolved {| payload_data := Some [shirt] |})
           (fetchAllFilteredProducts no_filters) (Thrown server_500)
           reachable_fresh).
Defined.

(** C3, as the claim words it, fails in its last part: a 404 carries the
    fixed message of its category although the response body has a
    message of its own. *)
Lemma C3_not_found_ignores_body_message :
  exists p, fetchAllFilteredProducts_catch not_found_404 = Some p /\
            categoryOf p = Some NotFound /\
            body_message not_found_404 = Some "Route not found" /\
            message p = "Products not found".
Proof.
  exists {| type := "NOT_FOUND"; message := "Products not found";
            code := "PRODUCTS_NOT_FOUND" |}.
  split; [vm_compute; reflexivity|]. split; [vm_compute; reflexivity|].
  split; vm_compute; reflexivity.
Qed.

(** C3 (amended): for every failure as the transport reports it (the body
    of a response can be read, and an aborted request carries no response)
    the catch block yields exactly one classified value and does not
    raise.  Its category is the one the rules of the specification give,
    first match first: abort or timeout is Timeout, HTTP 401 Unauthorized,
    404 NotFound, 500 ServerFault, any other response GenericApiFault, no
    response NetworkFault.  The message is taken from the failure when
    present and not empty, else it is the default of the category: the
    body's [message] for Unauthorized and GenericApiFault, the body's
    [error] for ServerFault, the error's own [message] for NetworkFault;
    NotFound and Timeout always carry their fixed message. *)
Theorem C3_classifier e :
  readable e -> aborted_without_response e ->
  exists p, fetchAllFilteredProducts_catch e = Some p /\
    categoryOf p = Some (spec_category e) /\
    message p = category_message e (spec_category e).
Proof.
  unfold readable, aborted_without_response, fetchAllFilteredProducts_catch,
    spec_category, body_message, body_error.
  destruct e as [[[st [d|]]|] ec em]; simpl.
  - intros _ Hab.
    destruct (decide (ec = Some "ECONNABORTED")) as [H | H];
      [by specialize (Hab H)|].
    repeat case_decide; eexists; (split; [reflexivity|]);
      split; reflexivity.
  - intros H. destruct (H _ eq_refl) as [? ?]. done.
  - intros _ _. repeat case_decide; eexists; (split; [reflexivity|]);
      split; reflexivity.
Qed.

Lemma C3_classifier_witness :
  readable server_500 /\ aborted_without_response server_500 /\
  exists p, fetchAllFilteredProducts_catch server_500 = Some p /\
    categoryOf p = Some ServerFault /\ message p = "index missing".
Proof.
  assert (H1 : readable server_500).
  { intros r [= <-]. by eexists. }
  assert (H2 : aborted_without_response server_500).
  { intros H. discriminate H. }
  split; [exact H1|]. split; [exact H2|].
  exact (C3_classifier server_500 H1 H2).
Defined.

(** C4: in Primary mode, a failed primary fetch classified as ServerFault,
    Timeout, NetworkFault or GenericApiFault leaves the view in Primary
    mode, for every request; the classified error becomes the held error,
    and neither a toast is shown nor a call dispatched. *)
Theorem C4_other_failures_stay_primary c arg e p k :
  settled c -> mode c = Primary ->
  fetchAllFilteredProducts_catch e = Some p ->
  categoryOf p = Some k ->
  k ∈ [ServerFault; Timeout; NetworkFault; GenericApiFault] ->
  let c' := step c (CallSettled (fetchAllFilteredProducts arg) (Thrown e)) in
  mode c' = Primary /\ currentError c' = Some p /\
  toasts c' = toasts c /\ dispatched c' = dispatched c.
Proof.
  intros Hs Hm He Hk Hin c'.
  destruct (categoryOf_other p k Hk Hin) as [H1 H2].
  assert (Hr : reducer (store c) (fetchAllFilteredProducts_rejected (Some p)) =
               {| isLoading := false; productList := [];
                  productDetails := productDetails (store c);
                  error := Some p; firebaseError := firebaseError (store c);
                  authError := authError (store c) |}).
  { apply reducer_rejected_other; simpl; by rewrite bool_decide_eq_false_2. }
  assert (Hc' : c' = dispatch (fetchAllFilteredProducts_rejected (Some p)) c).
  { unfold c', step. cbn [handle settled_action]. rewrite He.
    apply step_unwatched; [done| |]; by rewrite Hr. }
  rewrite Hc'. unfold mode, currentError, dispatch in *.
  cbn [store set_store fallbackMode toasts dispatched]. by rewrite Hr.
Qed.

Lemma C4_other_failures_stay_primary_witness :
  settled fresh /\ mode fresh = Primary /\
  (let c' := step fresh
               (CallSettled (fetchAllFilteredProducts no_filters)
                  (Thrown server_500)) in
   mode c' = Primary /\
   currentError c' = Some {| type := "SERVER_ERROR";
                             message := "index missing";
                             code := "SERVER_ERROR" |}).
Proof.
  split; [vm_compute; reflexivity|]. split; [reflexivity|].
  destruct (C4_other_failures_stay_primary fresh no_filters server_500
              {| type := "SERVER_ERROR"; message := "index missing";
                 code := "SERVER_ERROR" |} ServerFault)
    as (H1 & H2 & _).
  - vm_compute. reflexivity.
  - reflexivity.
  - reflexivity.
  - reflexivity.
  - apply elem_of_cons. by left.
  - split; [exact H1 | exact H2].
Defined.

(** C5, as the claim words it, fails in its first half: the slice has
    three error slots and can fill two with different errors.  With the
    requests of the mount and of a category click in flight, the first
    failing with a 404 and a later one with a 500, the slice holds the
    NotFound error and the ServerFault error at the same time. *)
Lemma C5_two_errors_held :
  let A := fetchAllFilteredProducts no_filters in
  let B := fetchAllFilteredProducts men_only in
  let issued := run fresh [FilterClicked "category" "men"] in
  let c := run issued [CallSettled A (Thrown not_found_404);
                       CallSettled B (Thrown server_500)] in
  dispatched issued = [A; B; B] /\ reachable c /\
  exists p q, firebaseError (store c) = Some p /\ error (store c) = Some q /\
    categoryOf p = Some NotFound /\ categoryOf q = Some ServerFault /\ p <> q.
Proof.
  cbv zeta. unfold run. cbn [fold_left].
  split; [vm_compute; reflexivity|]. split.
  - repeat apply reachable_step. apply reachable_fresh.
  - exists {| type := "NOT_FOUND"; message := "Products not found";
              code := "PRODUCTS_NOT_FOUND" |},
           {| type := "SERVER_ERROR"; message := "index missing";
              code := "SERVER_ERROR" |}.
    split; [vm_compute; reflexivity|]. split; [vm_compute; reflexivity|].
    split; [vm_compute; reflexivity|]. split; [vm_compute; reflexivity|].
    discriminate.
Qed.

(** C5 (amended): whenever the view is at rest after mounting and any
    sequence of events (answers and failures of the listing and of the
    details fetches, Try Again, Switch to Primary, clearing the errors,
    filter, sort and tile clicks), the [authError] slot is empty, and in
    Primary mode the [firebaseError] slot is empty and a held error that
    is Unauthorized or NotFound is a failure of a product-details fetch,
    which tells of one product and never carries the code of a missing
    products source.  In Fallback mode the slice can hold the NotFound
    error that caused the switch beside a different held error. *)
Theorem C5_invariant c :
  reachable c ->
  authError (store c) = None /\
  (mode c = Primary ->
   firebaseError (store c) = None /\
   forall p, currentError c = Some p ->
     categoryOf p = Some Unauthorized \/ categoryOf p = Some NotFound ->
     (exists e, fetchProductDetails_catch e = Some p) /\
     code p <> "PRODUCTS_NOT_FOUND").
Proof.
  intros Hr.
  destruct (reachable_consistent c Hr) as (_ & [Ha Hf] & _ & _ & _ & He).
  split; [done|]. intros Hm. apply mode_primary in Hm.
  split; [by destruct Hf as [? | ?]; [|congruence]|].
  intros p Hp Hk.
  rewrite categoryOf_Unauthorized, categoryOf_NotFound in Hk.
  destruct (He Hm p Hp Hk) as [e Hd].
  split; [by exists e | by apply (details_catch_code e)].
Qed.

Lemma C5_invariant_witness :
  let c := run fresh
             [CallSettled (fetchAllFilteredProducts no_filters)
                (Resolved {| payload_data := Some [shirt] |});
              TileClicked "p9";
              DetailsSettled (DetailsThrown (http_error 404 None))] in
  reachable c /\ mode c = Primary /\
  currentError c = Some {| type := "NOT_FOUND"; message := "Product not found";
                           code := "PRODUCT_NOT_FOUND" |} /\
  authError (store c) = None /\ firebaseError (store c) = None /\
  exists e, fetchProductDetails_catch e =
            Some {| type := "NOT_FOUND"; message := "Product not found";
                    code := "PRODUCT_NOT_FOUND" |}.
Proof.
  cbv zeta. unfold run. cbn [fold_left].
  set (c := step _ (DetailsSettled _)).
  assert (Hr : reachable c).
  { repeat apply reachable_step. apply reachable_fresh. }
  assert (Hm : mode c = Primary) by (vm_compute; reflexivity).
  assert (Hp : currentError c =
               Some {| type := "NOT_FOUND"; message := "Product not found";
                       code := "PRODUCT_NOT_FOUND" |})
    by (vm_compute; reflexivity).
  destruct (C5_invariant c Hr) as [Ha H].
  destruct (H Hm) as [Hf Hheld].
  split; [exact Hr|]. split; [exact Hm|]. split; [exact Hp|].
  split; [exact Ha|]. split; [exact Hf|].
  exact (proj1 (Hheld _ Hp (or_intror eq_refl))).
Defined.

(** C6, as the claim words it, fails in its example: when the backup fetch
    fails with HTTP 500 in Fallback mode, the held error is the
    DATABASE_ERROR value of the backup thunk, which is no ServerFault. *)
Lemma C6_fallback_500_is_database_error :
  let c' := step in_fallback
              (CallSettled (fetchProductsFromMongoDB no_filters)
                 (Thrown server_500)) in
  mode in_fallback = Fallback /\
  dispatched in_fallback =
    [fetchAllFilteredProducts no_filters; fetchProductsFromMongoDB no_filters] /\
  exists p, currentError c' = Some p /\ type p = "DATABASE_ERROR" /\
            categoryOf p <> Some ServerFault.
Proof.
  cbv zeta.
  split; [vm_compute; reflexivity|]. split; [vm_compute; reflexivity|].
  exists {| type := "DATABASE_ERROR"; message := "Failed to fetch products";
            code := "DATABASE_ERROR" |}.
  split; [vm_compute; reflexivity|]. split; [reflexivity|].
  vm_compute. discriminate.
Qed.

(** C6 (amended): in Fallback mode no answer and no failure of either
    thunk makes the view leave Fallback or show the switch notice again.
    A failure of the backup fetch, whatever its cause (an HTTP 500
    included), is held as a DATABASE_ERROR value carrying the body's
    message or "Failed to fetch products"; it is not classified. *)
Theorem C6_fallback_failure c call o arg e :
  settled c -> mode c = Fallback ->
  let c1 := step c (CallSettled call o) in
  let c2 := step c (CallSettled (fetchProductsFromMongoDB arg) (Thrown e)) in
  mode c1 = Fallback /\ switched_count c1 = switched_count c /\
  currentError c2 = Some (fetchProductsFromMongoDB_catch e) /\
  type (fetchProductsFromMongoDB_catch e) = "DATABASE_ERROR" /\
  categoryOf (fetchProductsFromMongoDB_catch e) = None.
Proof.
  intros Hs Hm c1 c2.
  assert (Hfm : fallbackMode c = true).
  { unfold mode in Hm. by destruct (fallbackMode c). }
  destruct (step_fallback_quiet c (CallSettled call o) Hfm) as [H1 H2];
    [done|].
  split; [unfold mode, c1; by rewrite H1|]. split; [exact H2|].
  split; [|done].
  unfold c2, step. cbn [handle settled_action].
  by rewrite step_unwatched.
Qed.

Lemma C6_fallback_failure_witness :
  settled in_fallback /\ mode in_fallback = Fallback /\
  (let c2 := step in_fallback
               (CallSettled (fetchProductsFromMongoDB no_filters)
                  (Thrown server_500)) in
   currentError c2 = Some (fetchProductsFromMongoDB_catch server_500)).
Proof.
  assert (H1 : settled in_fallback) by (vm_compute; reflexivity).
  assert (H2 : mode in_fallback = Fallback) by (vm_compute; reflexivity).
  split; [exact H1|]. split; [exact H2|].
  exact (proj1 (proj2 (proj2
    (C6_fallback_failure in_fallback
       (fetchProductsFromMongoDB no_filters) (Thrown server_500)
       no_filters server_500 H1 H2)))).
Defined.

(** C7, as the claim words it, fails in its last part: in the error state
    of Fallback mode, where the Switch to Primary button is rendered,
    pressing it sends requests, the handler making a call of
    [fetchProducts] itself. *)
Lemma C7_retry_fetches :
  switch_button_shown backup_failed = true /\
  mode backup_failed = Fallback /\
  dispatched backup_failed =
    [fetchAllFilteredProducts no_filters;
     fetchProductsFromMongoDB no_filters] /\
  length (dispatched (handleRetryWithFirebase backup_failed)) = 3%nat /\
  dispatched (step backup_failed SwitchToPrimary) =
    dispatched (handleRetryWithFirebase backup_failed) ++
    [fetchAllFilteredProducts no_filters].
Proof.
  split; [vm_compute; reflexivity|]. split; [vm_compute; reflexivity|].
  split; [vm_compute; reflexivity|]. split; vm_compute; reflexivity.
Qed.

(** C7 (amended): whatever the state before, once Switch to Primary has
    been handled the mode is Primary and no error is held.  The reset does
    invoke a fetch: in every state reached after mounting, the last
    request sent once the press has been handled is a new one, to the
    primary source, for the current filters and sort order. *)
Theorem C7_retry_primary c :
  let c' := step c SwitchToPrimary in
  mode c' = Primary /\ currentError c' = None /\
  (reachable c ->
   exists s, sort c = Some s /\
     last (dispatched c') =
       Some (fetchAllFilteredProducts
               {| filterParams := filters c; sortParams := s |}) /\
     (length (dispatched c) < length (dispatched c'))%nat).
Proof.
  cbv zeta. split; [|split].
  - unfold step, handle, handleRetryWithFirebase.
    set (c0 := dispatch clearProductErrors (setFallbackMode false c)).
    destruct (fetchProducts_frame (render c) c0) as (_ & _ & _ & Hm & _).
    destruct (fetchProducts_errors (render c) c0) as (_ & Hf & _).
    unfold mode. rewrite settle_primary; [done| |by rewrite Hm].
    by destruct Hf as [-> | ->].
  - unfold step, handle, handleRetryWithFirebase.
    set (c0 := dispatch clearProductErrors (setFallbackMode false c)).
    destruct (fetchProducts_errors (render c) c0) as (_ & _ & He).
    apply settle_no_error. by destruct He as [-> | ->].
  - intros Hr. pose proof (reachable_consistent c Hr) as Hc.
    destruct Hc as (_ & _ & [s Hsort] & _).
    exists s. split; [done|].
    rewrite (retry_dispatched c s (reachable_consistent c Hr) Hsort).
    cbv zeta. destruct (fallbackMode c).
    + split.
      * change [?x; ?y] with ([x] ++ [y]). by rewrite app_assoc, last_snoc.
      * rewrite length_app. simpl. lia.
    + split; [by rewrite last_snoc|]. rewrite length_app. simpl. lia.
Qed.

Lemma C7_retry_primary_witness :
  let c' := step backup_failed SwitchToPrimary in
  reachable backup_failed /\
  mode c' = Primary /\ currentError c' = None /\
  exists s, sort backup_failed = Some s /\
    last (dispatched c') =
      Some (fetchAllFilteredProducts
              {| filterParams := filters backup_failed; sortParams := s |}).
Proof.
  cbv zeta.
  destruct (C7_retry_primary backup_failed) as (H1 & H2 & H3).
  destruct (H3 reachable_backup_failed) as (s & Hs & Hl & _).
  split; [exact reachable_backup_failed|]. split; [exact H1|].
  split; [exact H2|]. exists s. split; [exact Hs | exact Hl].
Defined.

(** C8: an answer of either thunk that arrives while the view is at rest
    clears the held error, stores the records it carries as the product
    list (the empty list when it carries none) and leaves the mode as it
    is; an answer with 0 records gives the empty list with no error held. *)
Theorem C8_success c call r :
  settled c ->
  let c' := step c (CallSettled call (Resolved r)) in
  currentError c' = None /\
  productList (store c') = default [] (payload_data r) /\
  mode c' = mode c /\
  (payload_data r = Some [] ->
   productList (store c') = [] /\ currentError c' = None).
Proof.
  intros Hs c'.
  assert (Hc' : c' = dispatch (settled_action call (Resolved r)) c).
  { unfold c', step. cbn [handle].
    apply step_unwatched; [done | |]; by destruct call. }
  assert (H1 : currentError c' = None) by (rewrite Hc'; by destruct call).
  assert (H2 : productList (store c') = default [] (payload_data r))
    by (rewrite Hc'; by destruct call).
  split; [done|]. split; [done|]. split; [by rewrite Hc'|].
  intros Hr. rewrite H2, Hr. done.
Qed.

Lemma C8_success_witness :
  settled in_fallback /\
  (let c' := step in_fallback
               (CallSettled (fetchProductsFromMongoDB no_filters)
                  (Resolved {| payload_data := Some [] |})) in
   currentError c' = None /\ productList (store c') = [] /\
   mode c' = Fallback).
Proof.
  assert (H : settled in_fallback) by (vm_compute; reflexivity).
  split; [exact H|].
  destruct (C8_success in_fallback (fetchProductsFromMongoDB no_filters)
              {| payload_data := Some [] |} H) as (H1 & H2 & H3 & _).
  split; [exact H1|]. split; [exact H2 | exact H3].
Defined.

(** C9: when a fetch of either thunk is rejected, the product list is
    empty afterwards, whatever it held before and whatever the failure. *)
Theorem C9_rejected_empties_list c call e :
  productList (store (step c (CallSettled call (Thrown e)))) = [] /\
  forall s payload,
    productList (reducer s (fetchAllFilteredProducts_rejected payload)) = [] /\
    productList (reducer s (fetchProductsFromMongoDB_rejected payload)) = [].
Proof.
  split.
  - unfold step. rewrite settle_productList.
    destruct call; cbn [handle settled_action]; [|done].
    unfold dispatch. cbn [store set_store reducer]. by repeat case_match.
  - intros s payload. cbn [reducer]. split; [by repeat case_match | done].
Qed.

(** ** The Firestore handler *)

Lemma js_slice_first_ten {A} (l : list A) :
  js_slice l (Whole 0) (Whole 10) = take 10 l.
Proof.
  unfold js_slice, relative_index.
  replace (0 <? 0)%Z with false by done.
  replace (10 <? 0)%Z with false by done.
  rewrite (Z.min_l 0) by lia. rewrite Z.sub_0_r. simpl. rewrite drop_0.
  destruct (decide (10 <= length l)%nat).
  - rewrite Z.min_l by lia. done.
  - rewrite Z.min_r by lia. rewrite Nat2Z.id.
    rewrite !take_ge by lia. done.
Qed.

Lemma filled_length {A} (l : list A) : (0 < length l)%nat <-> l <> [].
Proof. destruct l; simpl; split; try done; lia. Qed.


(** The array of constraints is the constraints of the facets followed by
    the order and the limit. *)
Lemma firebase_constraints_parts req :
  firebase_constraints req =
  facet_constraints req ++
  [sort_constraint (default "price-lowtohigh" (q_sortBy req));
   limit (num_mul (default (Whole 20) (q_limit req))
            (default (Whole 1) (q_page req)))].
Proof.
  unfold firebase_constraints, facet_constraints. cbv zeta.
  rewrite !js_slice_first_ten, <- app_assoc.
  repeat case_decide; try done; exfalso;
    repeat match goal with
    | H : context [(0 < length _)%nat] |- _ => rewrite filled_length in H
    end; done.
Qed.









(** ** Re-rendering and the events of the view *)

(** X1: re-rendering always comes to rest within the commits [settle]
    allows: in every state the view is in between events, after mounting
    on any store, with any stored filters and any address, and after any
    sequence of events, no effect has anything left to do: a further
    commit, and any number of them, changes nothing. *)
Theorem reachable_at_rest c :
  reachable c -> settled c /\ commit c = c /\ forall n, flush n c = c.
Proof.
  intros Hr. destruct (reachable_consistent c Hr) as (Hs & _).
  split; [done|]. split; [by apply commit_settled|].
  intros n. by apply flush_settled.
Qed.

Lemma reachable_at_rest_witness :
  reachable backup_failed /\ settled backup_failed /\
  commit backup_failed = backup_failed.
Proof.
  destruct (reachable_at_rest backup_failed reachable_backup_failed)
    as (H1 & H2 & _).
  split; [exact reachable_backup_failed|]. split; [exact H1 | exact H2].
Defined.

(** ** Mounting *)

(** The view after the first commit of a mount. *)
Lemma first_commit_fields s stored address :
  let u := unmounted s stored address in
  let c1 := setupEffect (firebaseErrorEffect (render u)
                           (authErrorEffect (render u) u)) in
  filters c1 = default [] stored /\ filters_ref c1 = 1%nat /\
  sort c1 = Some "price-lowtohigh" /\
  fallbackMode c1 =
    match firebaseError s with Some _ => true | None => false end /\
  categorySearchParam c1 = address /\ session c1 = stored /\
  toasts c1 =
    match authError s with Some p => [authToast p] | None => [] end ++
    match firebaseError s with Some _ => [switchedToast] | None => [] end /\
  dispatched c1 = [].
Proof.
  cbv zeta. unfold firebaseErrorEffect, authErrorEffect. simpl.
  destruct (authError s), (firebaseError s); simpl; done.
Qed.

(** X2: mounting the listing, on whatever the store holds, sets the sort
    order to price-lowtohigh and the filters to those kept in session
    storage (none when nothing is stored), and sends its requests for
    them.  When the store holds a NotFound failure of the primary source
    from an earlier visit, the view turns to the backup source at once,
    showing the switch notice, and its requests go there; an
    authentication failure held is shown as a toast.  One request is
    sent when the stored filters are empty or put into the address the
    category it shows already; otherwise the address changes, the set-up
    runs again, and the same request is sent twice.  The view is loading
    afterwards with no error held. *)
Theorem mount_requests s stored address :
  let c := mount s stored address in
  let f := default [] stored in
  let m := match firebaseError s with Some _ => true | None => false end in
  let call := call_for m f "price-lowtohigh" in
  filters c = f /\ sort c = Some "price-lowtohigh" /\ fallbackMode c = m /\
  toasts c =
    match authError s with Some p => [authToast p] | None => [] end ++
    (if m then [switchedToast] else []) /\
  categorySearchParam c =
    (if decide (f = []) then address else category_of_query f) /\
  dispatched c =
    (if decide (f <> [] /\ category_of_query f <> address)
     then [call; call] else [call]) /\
  currentError c = None /\ blocks c = [LoadingState].
Proof.
  cbv zeta. unfold mount, settle. rewrite flush_commit, commit_unmounted.
  cbv zeta. set (u := unmounted s stored address).
  set (c0 := setupEffect (firebaseErrorEffect (render u)
                            (authErrorEffect (render u) u))).
  destruct (first_commit_fields s stored address)
    as (G1 & G2 & G3 & G4 & G5 & G6 & G7 & G8).
  fold u c0 in G1, G2, G3, G4, G5, G6, G7, G8.
  set (c1 := set_seen (render u) c0).
  assert (Hq : quiet c1) by apply quiet_set_seen, quiet_first_commit.
  assert (S1 : setup_deps (render u) = setup_deps (render c1)).
  { unfold setup_deps. cbn [render d_categorySearchParam c1 set_seen
      categorySearchParam u unmounted]. by rewrite G5. }
  assert (S2 : url_deps (render u) <> url_deps (render c1)).
  { unfold url_deps. cbn [render d_filters_ref c1 set_seen filters_ref u
      unmounted]. rewrite G2. lia. }
  assert (Hsome : forall x : Listing, sort x = Some "price-lowtohigh" ->
                    is_Some (d_sort (render x)))
    by (intros x Hx; cbn [render d_sort]; rewrite Hx; by eexists).
  assert (Hblocks : forall x : Listing,
            isLoading (store x) = true -> blocks x = [LoadingState]).
  { intros x Hx. unfold blocks. cbv zeta. by rewrite Hx. }
  destruct (decide (default [] stored <> [] /\
                    category_of_query (default [] stored) <> address))
    as [[Hne Hcat] | Hno].
  - change (flush 3 c1) with (flush (3 + 0) c1).
    assert (N1 : filters c1 <> [])
      by (cbn [c1 set_seen filters]; by rewrite G1).
    assert (N2 : category_of_query (filters c1) <> categorySearchParam c1)
      by (cbn [c1 set_seen filters categorySearchParam]; by rewrite G1, G5).
    assert (N3 : filters c1 = default [] (session c1))
      by (cbn [c1 set_seen filters session]; by rewrite G1, G6).
    rewrite (flush_quiet_url_setup 0 c1 (render u) Hq eq_refl S1 S2 N1 N2 N3).
    cbv zeta.
    set (c2 := fetchProducts (render c1) (setSearchParams (filters c1) c1)).
    set (c3 := setupEffect c2).
    destruct (fetchProducts_frame (render c1)
                (setSearchParams (filters c1) c1))
      as (A1 & _ & A3 & A4 & A5 & A6 & A7 & _).
    fold c2 in A1, A3, A4, A5, A6, A7.
    destruct (setupEffect_frame c2)
      as (_ & B2 & _ & B4 & B5 & B6 & B7 & B8 & B9 & _).
    fold c3 in B2, B4, B5, B6, B7, B8, B9.
    destruct (fetchProducts_frame (render c3) c3)
      as (C1 & _ & C3 & C4 & C5 & C6 & C7 & _).
    assert (D1 : dispatched c2 =
                 [call_for (fallbackMode c0) (default [] stored)
                    "price-lowtohigh"]).
    { unfold c2. rewrite fetchProducts_dispatched.
      cbn [render d_sort d_filters d_fallbackMode c1 set_seen sort filters
           fallbackMode setSearchParams dispatched].
      by rewrite G1, G3, G8. }
    unfold currentError.
    cbn [filters sort fallbackMode toasts categorySearchParam dispatched
         store set_seen].
    rewrite C1, C3, C4, C5, C7, B2, B4, B5, B6, B8, A4, A5, A6, A7.
    rewrite fetchProducts_dispatched, B9, D1.
    cbn [render d_sort d_filters d_fallbackMode].
    rewrite B2, B4, B5, A4, A6.
    cbn [c1 set_seen setSearchParams session fallbackMode toasts filters
         categorySearchParam].
    rewrite G1, G4, G6, G7.
    rewrite (fetchProducts_error (render c3) c3) by (by apply Hsome).
    rewrite (Hblocks (set_seen _ _))
      by (cbn [store set_seen]; apply fetchProducts_loading; by apply Hsome).
    rewrite decide_False by done.
    repeat split; try done. by destruct (firebaseError s).
  - assert (Hsame : filters c1 <> [] ->
                    category_of_query (filters c1) = categorySearchParam c1).
    { cbn [c1 set_seen filters categorySearchParam]. rewrite G1, G5.
      intros Hne. destruct (decide (category_of_query (default [] stored)
                                    = address)); [done | tauto]. }
    rewrite (flush_quiet_url 2 c1 (render u)); try done.
    destruct (fetchProducts_frame (render c1) c1)
      as (A1 & _ & A3 & A4 & A5 & A6 & A7 & _).
    unfold currentError.
    cbn [filters sort fallbackMode toasts categorySearchParam dispatched
         store set_seen].
    rewrite A1, A3, A4, A5, A7, fetchProducts_dispatched.
    cbn [render d_sort d_filters d_fallbackMode c1 set_seen filters sort
         fallbackMode toasts categorySearchParam dispatched].
    rewrite G1, G3, G4, G5, G7, G8.
    rewrite (fetchProducts_error (render c1) c1)
      by (apply Hsome; by rewrite <- G3).
    rewrite (Hblocks (set_seen _ _))
      by (cbn [store set_seen]; apply fetchProducts_loading, Hsome;
          by rewrite <- G3).
    repeat split; try done.
    + by destruct (firebaseError s).
    + case_decide as Hf; [done|]. symmetry.
      destruct (decide (category_of_query (default [] stored) = address));
        [done | tauto].
Qed.

Lemma toggle_filter_filled sectionId opt f : toggle_filter sectionId opt f <> [].
Proof. destruct f as [|[k o] t]; simpl; [done|]. by case_decide. Qed.

(** X3: picking a filter option, in any state reached after mounting,
    toggles that option in the filters and writes the new filters to
    session storage; the mode does not change and no toast is shown.
    When the category the new filters put in the address is the one the
    address shows already, exactly one request is sent, for the new
    filters with the current sort order, to the source of the current
    mode.  When it differs (a category option was picked or dropped), the
    address changes, which sets the sort order back to price-lowtohigh,
    and two requests are sent: the first with the current sort order, the
    second with price-lowtohigh. *)
Theorem filter_click_requests c sectionId opt s :
  reachable c -> sort c = Some s ->
  let c' := step c (FilterClicked sectionId opt) in
  let f := toggle_filter sectionId opt (filters c) in
  let m := fallbackMode c in
  filters c' = f /\ session c' = Some f /\
  mode c' = mode c /\ toasts c' = toasts c /\
  categorySearchParam c' = category_of_query f /\
  (category_of_query f = categorySearchParam c ->
   sort c' = Some s /\
   dispatched c' = dispatched c ++ [call_for m f s]) /\
  (category_of_query f <> categorySearchParam c ->
   sort c' = Some "price-lowtohigh" /\
   dispatched c' =
     dispatched c ++ [call_for m f s; call_for m f "price-lowtohigh"]).
Proof.
  intros Hr Hsort c' f m.
  pose proof (reachable_consistent c Hr) as Hcons.
  destruct Hcons as (Hs & Hq & _ & Hsess & Hcat & _).
  set (h := handleFilter sectionId opt c).
  assert (Hseen : seen h = Some (render c)) by exact Hs.
  assert (Hqh : quiet h) by exact Hq.
  assert (Hf : filters h = f) by done.
  assert (Hne : filters h <> []) by apply toggle_filter_filled.
  assert (S1 : setup_deps (render c) = setup_deps (render h)) by done.
  assert (S2 : url_deps (render c) <> url_deps (render h)).
  { unfold url_deps, h, handleFilter. cbn. lia. }
  destruct (decide (category_of_query f = categorySearchParam c)) as [E | E].
  - assert (Hc' : c' = set_seen (render h) (fetchProducts (render h) h)).
    { unfold c', step, settle. cbn [handle]. fold h.
      apply (flush_quiet_url 3 h (render c)); try done. }
    destruct (fetchProducts_frame (render h) h)
      as (E1 & _ & E3 & E4 & E5 & E6 & E7 & _).
    rewrite Hc'. unfold mode.
    cbn [filters session sort dispatched fallbackMode toasts set_seen
         categorySearchParam].
    rewrite E1, E3, E4, E5, E6, E7, fetchProducts_dispatched.
    cbn [render d_sort d_filters d_fallbackMode].
    change (sort h) with (sort c). rewrite Hsort.
    repeat split; try done; by symmetry.
  - assert (Hc' : c' =
      let c1 := fetchProducts (render h) (setSearchParams (filters h) h) in
      let c2 := setupEffect c1 in
      set_seen (render c2) (fetchProducts (render c2) c2)).
    { unfold c', step, settle. cbn [handle]. fold h.
      apply (flush_quiet_url_setup 1 h (render c)); try done. }
    cbv zeta in Hc'.
    set (c1 := fetchProducts (render h) (setSearchParams (filters h) h)) in *.
    set (c2 := setupEffect c1) in *.
    destruct (fetchProducts_frame (render h) (setSearchParams (filters h) h))
      as (A1 & _ & A3 & A4 & A5 & A6 & A7 & _).
    fold c1 in A1, A3, A4, A5, A6, A7.
    destruct (setupEffect_frame c1)
      as (_ & B2 & _ & B4 & B5 & B6 & B7 & B8 & B9 & _).
    fold c2 in B2, B4, B5, B6, B7, B8, B9.
    destruct (fetchProducts_frame (render c2) c2)
      as (C1 & _ & C3 & C4 & C5 & C6 & C7 & _).
    assert (D1 : dispatched c1 = dispatched c ++ [call_for m f s]).
    { unfold c1. rewrite fetchProducts_dispatched.
      cbn [render d_sort d_filters d_fallbackMode].
      change (sort h) with (sort c). by rewrite Hsort. }
    assert (D2 : dispatched (fetchProducts (render c2) c2) =
                 dispatched c ++
                 [call_for m f s; call_for m f "price-lowtohigh"]).
    { rewrite fetchProducts_dispatched, B9, D1.
      cbn [render d_sort d_filters d_fallbackMode].
      rewrite B2, B4, B5, A4, A6. rewrite <- app_assoc. done. }
    assert (F1 : filters (fetchProducts (render c2) c2) = f)
      by (by rewrite C1, B2, A6).
    assert (F2 : session (fetchProducts (render c2) c2) = Some f)
      by (by rewrite C6, B7, A6).
    assert (F3 : fallbackMode (fetchProducts (render c2) c2) = fallbackMode c)
      by (by rewrite C4, B5, A4).
    assert (F4 : toasts (fetchProducts (render c2) c2) = toasts c)
      by (by rewrite C7, B8, A7).
    assert (F5 : categorySearchParam (fetchProducts (render c2) c2) =
                 category_of_query f) by (by rewrite C5, B6, A5).
    assert (F6 : sort (fetchProducts (render c2) c2) = Some "price-lowtohigh")
      by (by rewrite C3, B4).
    rewrite Hc'. unfold mode.
    cbn [filters session sort dispatched fallbackMode toasts set_seen
         categorySearchParam].
    rewrite F3. repeat split; done.
Qed.

Lemma filter_click_requests_witness :
  reachable fresh /\ sort fresh = Some "price-lowtohigh" /\
  dispatched (step fresh (FilterClicked "category" "men")) =
    [fetchAllFilteredProducts no_filters; fetchAllFilteredProducts men_only;
     fetchAllFilteredProducts men_only] /\
  dispatched (step fresh (FilterClicked "brand" "nike")) =
    [fetchAllFilteredProducts no_filters;
     fetchAllFilteredProducts
       {| filterParams := [("brand", ["nike"])];
          sortParams := "price-lowtohigh" |}].
Proof.
  split; [exact reachable_fresh|]. split; [reflexivity|]. split.
  - refine (proj2 (proj2 (proj2 (proj2 (proj2 (proj2 (proj2
      (filter_click_requests fresh "category" "men" "price-lowtohigh"
         reachable_fresh eq_refl)))))) _)).
    vm_compute. discriminate.
  - refine (proj2 (proj1 (proj2 (proj2 (proj2 (proj2 (proj2
      (filter_click_requests fresh "brand" "nike" "price-lowtohigh"
         reachable_fresh eq_refl)))))) _)).
    vm_compute. reflexivity.
Defined.

(** X4: choosing the sort order that is already set does nothing at all;
    choosing another one sends exactly one request with the new order and
    the current filters to the source of the current mode. *)
Theorem sort_choice_fetches_on_change c s value :
  reachable c -> sort c = Some s ->
  let c' := step c (SortChosen value) in
  (value = s -> c' = c) /\
  (value <> s ->
   sort c' = Some value /\
   dispatched c' =
     dispatched c ++ [call_for (fallbackMode c) (filters c) value] /\
   mode c' = mode c /\ toasts c' = toasts c).
Proof.
  intros Hr Hsort c'.
  pose proof (reachable_consistent c Hr) as Hcons.
  destruct Hcons as (Hs & Hq & _).
  set (h := handleSort value c). split.
  - intros ->. assert (Hh : h = c).
    { unfold h, handleSort, setSort. rewrite <- Hsort. by destruct c. }
    unfold c', step. cbn [handle]. fold h. rewrite Hh.
    by apply flush_settled.
  - intros Hv.
    assert (Hh : c' = set_seen (render h) (fetchProducts (render h) h)).
    { unfold c', step. cbn [handle]. fold h.
      apply (settle_refetch c h); try done.
      unfold fetch_deps. cbn [render d_sort d_filters_ref d_fallbackMode h
        handleSort setSort sort]. rewrite Hsort. congruence. }
    destruct (fetchProducts_frame (render h) h)
      as (_ & _ & E3 & E4 & _ & _ & E7 & _).
    rewrite Hh. unfold mode.
    cbn [sort dispatched fallbackMode toasts set_seen].
    rewrite E3, E4, E7, fetchProducts_dispatched.
    done.
Qed.

Lemma sort_choice_fetches_on_change_witness :
  reachable in_fallback /\
  dispatched (step in_fallback (SortChosen "title-atoz")) =
    dispatched in_fallback ++
    [fetchProductsFromMongoDB
       {| filterParams := []; sortParams := "title-atoz" |}].
Proof.
  split; [exact reachable_in_fallback|].
  refine (proj1 (proj2 (proj2
    (sort_choice_fetches_on_change in_fallback "price-lowtohigh" "title-atoz"
       reachable_in_fallback _) _))).
  - vm_compute. reflexivity.
  - discriminate.
Defined.

(** X5: Try Again, in any state reached after mounting, sends exactly one
    request with the current filters and sort order to the source of the
    current mode; the view is loading afterwards with no error held, the
    mode is unchanged and no toast is shown. *)
Theorem try_again_fetches_once c s :
  reachable c -> sort c = Some s ->
  let c' := step c TryAgain in
  dispatched c' =
    dispatched c ++ [call_for (fallbackMode c) (filters c) s] /\
  mode c' = mode c /\ toasts c' = toasts c /\
  currentError c' = None /\ blocks c' = [LoadingState].
Proof.
  intros Hr Hsort c'.
  pose proof (reachable_consistent c Hr) as Hcons.
  destruct Hcons as (Hs & Hq & _).
  set (h := fetchProducts (render c) c).
  destruct (fetchProducts_frame (render c) c)
    as (_ & _ & _ & E4 & _ & _ & E7 & E8 & _).
  destruct (fetchProducts_render (render c) c Hq eq_refl) as [Hrd Hqh].
  fold h in E4, E7, E8, Hrd, Hqh.
  assert (Hh : c' = set_seen (render h) h).
  { unfold c', step. cbn [handle]. fold h.
    apply (settle_store_only c h); try done; by rewrite Hrd. }
  assert (Hsome : is_Some (d_sort (render c))) by (by exists s).
  rewrite Hh. unfold mode, currentError, blocks.
  cbn [store dispatched fallbackMode toasts set_seen].
  rewrite E4, E7. unfold h at 1. rewrite fetchProducts_dispatched.
  cbn [render d_sort d_filters d_fallbackMode]. rewrite Hsort.
  split; [done|]. split; [done|]. split; [done|].
  unfold h. rewrite (fetchProducts_error _ _ Hsome).
  split; [done|]. cbv zeta. by rewrite (fetchProducts_loading _ _ Hsome).
Qed.

Lemma try_again_fetches_once_witness :
  reachable in_fallback /\
  dispatched (step in_fallback TryAgain) =
    dispatched in_fallback ++ [fetchProductsFromMongoDB no_filters].
Proof.
  split; [exact reachable_in_fallback|].
  refine (proj1 (try_again_fetches_once in_fallback "price-lowtohigh"
                   reachable_in_fallback _)).
  vm_compute. reflexivity.
Defined.

(** X6: Switch to Primary, pressed in Fallback mode, sends two requests:
    first one more to the backup source (the handler's own call, made with
    the values of the render before the reset) and then, on the next
    render, one to the primary source, both with the current filters and
    sort order.  Pressed in Primary mode it sends one request to the
    primary source. *)
Theorem switch_to_primary_calls c s :
  reachable c -> sort c = Some s ->
  let arg := {| filterParams := filters c; sortParams := s |} in
  dispatched (step c SwitchToPrimary) =
  dispatched c ++
  (if fallbackMode c
   then [fetchProductsFromMongoDB arg; fetchAllFilteredProducts arg]
   else [fetchAllFilteredProducts arg]).
Proof.
  intros Hr Hsort. apply retry_dispatched; [|done].
  by apply reachable_consistent.
Qed.

Lemma switch_to_primary_calls_witness :
  reachable in_fallback /\
  dispatched (step in_fallback SwitchToPrimary) =
    [fetchAllFilteredProducts no_filters; fetchProductsFromMongoDB no_filters;
     fetchProductsFromMongoDB no_filters; fetchAllFilteredProducts no_filters].
Proof.
  split; [exact reachable_in_fallback|].
  refine (switch_to_primary_calls in_fallback "price-lowtohigh"
            reachable_in_fallback _).
  vm_compute. reflexivity.
Defined.

(** X7: in every state reached after mounting exactly one of the four
    blocks of the product area is rendered: the loading skeleton, the
    error state, the empty state or the product grid. *)
Theorem one_block_rendered c :
  reachable c -> exists b, blocks c = [b].
Proof.
  intros Hr. destruct (reachable_consistent c Hr) as (_ & [Ha _] & _).
  unfold blocks. cbv zeta. rewrite Ha.
  destruct (isLoading (store c)); [by eexists|].
  destruct (error (store c)); simpl; [by eexists|].
  destruct (productList (store c)); simpl; by eexists.
Qed.

Lemma one_block_rendered_witness :
  reachable fresh /\ exists b, blocks fresh = [b].
Proof.
  split; [apply reachable_fresh|].
  exact (one_block_rendered fresh reachable_fresh).
Defined.

(** ** The catch blocks and the details thunk *)

(** X8: the catch block of the listing thunk fails to return a value, so
    that the thunk is rejected without a payload, exactly when a response
    with a status other than 404 came with a [null] body; the rejected
    reducer then stores no error at all while emptying the list. *)
Theorem listing_catch_throws_iff e s :
  (fetchAllFilteredProducts_catch e = None <->
   exists r, err_response e = Some r /\ data r = None /\ status r <> 404%Z) /\
  (fetchAllFilteredProducts_catch e = None ->
   let s' := reducer s (fetchAllFilteredProducts_rejected
                          (fetchAllFilteredProducts_catch e)) in
   error s' = None /\ productList s' = [] /\ isLoading s' = false).
Proof.
  split.
  - unfold fetchAllFilteredProducts_catch.
    destruct e as [[[st [d|]]|] ec em]; simpl.
    + split; [by repeat case_decide|]. intros (r & [= <-] & ? & _). done.
    + split.
      * intros H. eexists. split; [done|]. split; [done|]. simpl.
        intros ->. by repeat case_decide.
      * intros (r & [= <-] & _ & Hst). simpl in Hst. by repeat case_decide.
    + split; [by repeat case_decide|]. intros (r & ? & _). done.
  - intros ->. done.
Qed.

(** X9: the catch block of the details thunk tells four kinds of failure
    apart by the response alone: a 401 gives AUTH_ERROR and a 404
    NOT_FOUND, both with a fixed message whatever the body says; every
    other status gives SERVER_ERROR, with the body's message or a
    default; no response gives NETWORK_ERROR with the error's own message
    or a default.  Each kind has its own code.  A timeout is not told
    apart and the [error] field of a body is never used. *)
Theorem details_catch_kinds e :
  readable e ->
  exists p, fetchProductDetails_catch e = Some p /\
    (type p = "AUTH_ERROR" <->
     exists r, err_response e = Some r /\ status r = 401%Z) /\
    (type p = "NOT_FOUND" <->
     exists r, err_response e = Some r /\ status r = 404%Z) /\
    (type p = "SERVER_ERROR" <->
     exists r, err_response e = Some r /\
               status r <> 401%Z /\ status r <> 404%Z) /\
    (type p = "NETWORK_ERROR" <-> err_response e = None) /\
    (type p = "AUTH_ERROR" ->
     message p = "Authentication required to view product details" /\
     code p = "UNAUTHORIZED") /\
    (type p = "NOT_FOUND" ->
     message p = "Product not found" /\ code p = "PRODUCT_NOT_FOUND") /\
    (type p = "SERVER_ERROR" ->
     message p = or_else (body_message e) "Failed to fetch product details" /\
     code p = "SERVER_ERROR") /\
    (type p = "NETWORK_ERROR" ->
     message p = or_else (err_message e) "Network error occurred" /\
     code p = "NETWORK_ERROR").
Proof.
  unfold readable, fetchProductDetails_catch, body_message.
  destruct e as [[[st [d|]]|] ec em]; simpl.
  - intros _. repeat case_decide; eexists; (split; [reflexivity|]); simpl;
      repeat split; try done; try (intros; discriminate);
      try (intros (r & [= <-] & Hst); simpl in Hst; intuition congruence);
      intros _; eexists; (split; [reflexivity|]); simpl; done.
  - intros H. destruct (H _ eq_refl) as [? ?]. done.
  - intros _. eexists; (split; [reflexivity|]); simpl;
      repeat split; try done; try (intros; discriminate);
      intros (r & H & _); discriminate.
Qed.

Lemma details_catch_kinds_witness :
  readable not_found_404 /\
  exists p, fetchProductDetails_catch not_found_404 = Some p /\
            type p = "NOT_FOUND" /\ message p = "Product not found".
Proof.
  assert (H : readable not_found_404).
  { intros r [= <-]. by eexists. }
  split; [exact H|].
  destruct (details_catch_kinds not_found_404 H)
    as (p & H1 & _ & H3 & _ & _ & _ & H7 & _).
  assert (Ht : type p = "NOT_FOUND").
  { apply H3. eexists. split; reflexivity. }
  exists p. split; [exact H1|]. split; [exact Ht|]. exact (proj1 (H7 Ht)).
Defined.

(** X10: a failed details fetch never triggers the fallback, the
    authentication toast or a new request, whatever its kind (401 and 404
    included): the view stays at rest in the same mode with the same
    product list.  But its error is held as the listing's error, so that
    once the authentication slot is empty the product area renders the
    error state instead of the grid. *)
Theorem details_failure_is_shown_as_listing_error c p :
  settled c -> authError (store c) = None ->
  let c' := settle (dispatch (fetchProductDetails_rejected (Some p)) c) in
  mode c' = mode c /\ toasts c' = toasts c /\
  dispatched c' = dispatched c /\
  productList (store c') = productList (store c) /\
  productDetails (store c') = None /\
  blocks c' = [ErrorState].
Proof.
  intros Hs Ha c'.
  assert (Hc' : c' = dispatch (fetchProductDetails_rejected (Some p)) c).
  { unfold c'. by apply step_unwatched. }
  rewrite Hc'. unfold mode, blocks, dispatch.
  cbn [store set_store fallbackMode toasts dispatched reducer isLoading
       error authError productList productDetails].
  rewrite Ha. done.
Qed.

Lemma details_failure_is_shown_as_listing_error_witness :
  settled fresh /\
  blocks (settle (dispatch
            (fetchProductDetails_rejected
               (fetchProductDetails_catch not_found_404)) fresh)) =
  [ErrorState].
Proof.
  assert (H : settled fresh) by (vm_compute; reflexivity).
  split; [exact H|].
  refine (proj2 (proj2 (proj2 (proj2 (proj2
    (details_failure_is_shown_as_listing_error fresh
       {| type := "NOT_FOUND"; message := "Product not found";
          code := "PRODUCT_NOT_FOUND" |} H _)))))).
  reflexivity.
Defined.

(** ** Filters on their way through the query string *)

Lemma split_comma_plain x :
  has_comma x = false -> split_comma x = [x].
Proof.
  induction x as [|a x IH]; simpl; [done|].
  intros H. apply orb_false_iff in H as [Ha Hx].
  rewrite Ha, (IH Hx). done.
Qed.

Lemma split_comma_app x r :
  has_comma x = false ->
  split_comma (x ++ "," ++ r) = x :: split_comma r.
Proof.
  induction x as [|a x IH]; simpl; [done|].
  intros H. apply orb_false_iff in H as [Ha Hx].
  rewrite Ha, (IH Hx). done.
Qed.

Lemma split_comma_join l :
  l <> [] -> Forall plain_option l -> split_comma (join "," l) = l.
Proof.
  induction l as [|x l IH]; [done|]. intros _ Hall.
  apply Forall_cons in Hall as [[_ Hx] Hall].
  destruct l as [|y l]; [by apply split_comma_plain|].
  change (join "," (x :: y :: l)) with (x ++ "," ++ join "," (y :: l))%string.
  rewrite (split_comma_app _ _ Hx), IH; done.
Qed.

Lemma join_not_empty l :
  l <> [] -> Forall plain_option l -> join "," l <> "".
Proof.
  destruct l as [|x l]; [done|]. intros _ Hall.
  apply Forall_cons in Hall as [[Hx _] _].
  destruct l; [done|]. simpl. destruct x; done.
Qed.

(** X16: the selected options of a filter survive the way from the view to
    both handlers: when no option is empty or holds a comma, the string the
    thunks put into the query (the options joined by commas) is read back
    by the Firestore handler as the same list of options, and by the
    MongoDB handler as the same [$in] list; no selected option means no
    filter on either side. *)
Theorem filter_options_round_trip l :
  Forall plain_option l ->
  facet_values (Some (QString (join "," l))) = l /\
  mongo_facet (Some (QString (join "," l))) =
    Returned (if decide (l = []) then None else Some l).
Proof.
  intros Hall. destruct (decide (l = [])) as [-> | Hl]; [done|].
  cbn [facet_values mongo_facet].
  rewrite decide_False by by apply join_not_empty.
  rewrite (split_comma_join l Hl Hall). split; [|done].
  induction Hall as [|x l [Hx _] _ IH]; [done|].
  rewrite filter_cons, decide_True by done.
  destruct l; [done|]. f_equal. by apply IH.
Qed.

Lemma filter_options_round_trip_witness :
  Forall plain_option ["men"; "kids"] /\
  join "," ["men"; "kids"] = "men,kids" /\
  facet_values (Some (QString "men,kids")) = ["men"; "kids"].
Proof.
  assert (H : Forall plain_option ["men"; "kids"]).
  { repeat constructor; discriminate. }
  split; [exact H|]. split; [reflexivity|].
  exact (proj1 (filter_options_round_trip ["men"; "kids"] H)).
Defined.

(** ** Filters, badges and the cart guard *)

Lemma remove_first_elem_of x y l :
  y <> x -> y ∈ remove_first x l <-> y ∈ l.
Proof.
  intros Hy. induction l as [|z l IH]; simpl; [done|].
  case_decide; subst; rewrite !elem_of_cons; [|rewrite IH]; intuition.
Qed.

Lemma remove_first_NoDup x l :
  NoDup l -> NoDup (remove_first x l) /\ x ∉ remove_first x l.
Proof.
  induction 1 as [|z l Hz Hl [IH1 IH2]]; simpl.
  - split; [constructor | apply not_elem_of_nil].
  - case_decide; subst; [done|]. split.
    + constructor; [|done]. by rewrite remove_first_elem_of.
    + rewrite not_elem_of_cons. split; [congruence | done].
Qed.

Lemma options_of_toggle_other sectionId opt other f :
  other <> sectionId ->
  options_of other (toggle_filter sectionId opt f) = options_of other f.
Proof.
  intros Ho. induction f as [|[k options] t IH]; simpl.
  - by rewrite decide_False.
  - destruct (decide (k = sectionId)) as [-> | Hk]; simpl.
    + by rewrite !decide_False.
    + by rewrite IH.
Qed.

Lemma options_of_toggle sectionId opt f :
  options_of sectionId (toggle_filter sectionId opt f) =
  if decide (opt ∈ options_of sectionId f)
  then remove_first opt (options_of sectionId f)
  else options_of sectionId f ++ [opt].
Proof.
  induction f as [|[k options] t IH]; simpl.
  - destruct (decide (sectionId = sectionId)); [|done].
    destruct (decide (opt ∈ [])) as [H | H]; [by apply elem_of_nil in H|].
    done.
  - destruct (decide (k = sectionId)) as [-> | Hk]; simpl.
    + by rewrite decide_True.
    + by rewrite decide_False.
Qed.

(** X17: a click on a filter option flips that option and nothing else:
    when the options selected in the section hold no duplicate, the option
    is selected afterwards exactly if it was not before, every other
    option of the section keeps its state, the options of every other
    section stay as they are, and no duplicate appears. *)
Theorem toggle_filter_flips_one_option sectionId opt f :
  NoDup (options_of sectionId f) ->
  let f' := toggle_filter sectionId opt f in
  (opt ∈ options_of sectionId f' <-> opt ∉ options_of sectionId f) /\
  (forall o, o <> opt ->
     o ∈ options_of sectionId f' <-> o ∈ options_of sectionId f) /\
  (forall other, other <> sectionId ->
     options_of other f' = options_of other f) /\
  NoDup (options_of sectionId f').
Proof.
  intros Hnd f'. unfold f'. rewrite options_of_toggle.
  destruct (remove_first_NoDup opt _ Hnd) as [H1 H2].
  split; [|split; [|split]].
  - case_decide; [tauto|]. rewrite elem_of_app, list_elem_of_singleton.
    tauto.
  - intros o Ho. case_decide; [by apply remove_first_elem_of|].
    rewrite elem_of_app, list_elem_of_singleton. tauto.
  - intros other Ho. by apply options_of_toggle_other.
  - case_decide; [done|]. apply NoDup_app. split; [done|].
    split; [|apply NoDup_singleton].
    intros x Hx Hx'. apply list_elem_of_singleton in Hx'. by subst.
Qed.

Lemma toggle_filter_flips_one_option_witness :
  let f := [("category", ["men"]); ("brand", ["nike"])] in
  NoDup (options_of "brand" f) /\
  "nike" ∉ options_of "brand" (toggle_filter "brand" "nike" f).
Proof.
  cbv zeta.
  assert (H : NoDup (options_of "brand"
                       [("category", ["men"]); ("brand", ["nike"])])).
  { vm_compute. apply NoDup_singleton. }
  split; [exact H|].
  destruct (toggle_filter_flips_one_option "brand" "nike"
              [("category", ["men"]); ("brand", ["nike"])] H) as [H1 _].
  intros Hin. apply H1 in Hin. apply Hin.
  vm_compute. apply elem_of_cons. by left.
Defined.

(** X18: the query string written to the address bar leaves out every
    section without a selected option: it is the one of the filters with
    those sections removed, and it is empty when no option is selected in
    any section. *)
Theorem search_params_skip_empty_sections encodeURIComponent
    (f : list (string * list string)) :
  createSearchParamsHelper encodeURIComponent f =
  createSearchParamsHelper encodeURIComponent
    (filter (fun kv => kv.2 <> []) f) /\
  (Forall (fun kv => kv.2 = []) f ->
   createSearchParamsHelper encodeURIComponent f = "").
Proof.
  unfold createSearchParamsHelper. split.
  - f_equal. induction f as [|[k v] t IH]; [done|].
    destruct v as [|x v]; simpl.
    + rewrite filter_cons_False by (simpl; congruence). exact IH.
    + by rewrite IH.
  - intros Hall. replace (flat_map _ f) with (@nil string); [done|].
    induction Hall as [|[k v] t Hv _ IH]; [done|]. simpl in *. subst.
    by rewrite decide_False by (simpl; lia).
Qed.

(** X19: the badge of a product tile.  Out Of Stock is shown exactly for
    stock 0, which is also exactly when the Add to cart button is replaced
    by the disabled one; the Sale badge is shown only when the stock is at
    least 10 and the sale price positive, so low stock takes precedence
    over a sale; no badge means stock of at least 10 and no sale price;
    a negative stock is shown as Only n items left with the button
    enabled. *)
Theorem stock_badge_by_priority p :
  (getStockBadge (Some p) = Some OutOfStock <-> totalStock p = 0%Z) /\
  (add_to_cart_shown (Some p) = false <->
   getStockBadge (Some p) = Some OutOfStock) /\
  (getStockBadge (Some p) = Some Sale <->
   (10 <= totalStock p)%Z /\ (0 < salePrice p)%Z) /\
  (getStockBadge (Some p) = None <->
   (10 <= totalStock p)%Z /\ (salePrice p <= 0)%Z) /\
  ((totalStock p < 0)%Z ->
   getStockBadge (Some p) = Some (OnlyLeft (totalStock p)) /\
   add_to_cart_shown (Some p) = true).
Proof.
  unfold getStockBadge, add_to_cart_shown.
  repeat split; repeat case_decide; try case_bool_decide;
    simpl; try done; try lia; intros; try lia; try discriminate;
    try (destruct_and?; lia).
Qed.

(** X20: the cart guard.  With at most one cart entry per product, the
    handler dispatches [addToCart] exactly when every entry of the product
    has a quantity below the stock it was given, and otherwise shows the
    toast naming the quantity in the cart and dispatches nothing; a product
    that is not in the cart is always added. *)
Theorem add_to_cart_guard items pid stock :
  NoDup (map productId items) ->
  (handleAddtoCart items pid stock = DispatchAddToCart pid <->
   forall item, item ∈ items -> productId item = pid ->
     (quantity item + 1 <= stock)%Z) /\
  (forall item, item ∈ items -> productId item = pid ->
     (quantity item + 1 > stock)%Z ->
     handleAddtoCart items pid stock = OnlyQuantityToast (quantity item)).
Proof.
  intros Hnd. unfold handleAddtoCart.
  assert (Huniq : forall i a b, list_find (fun x => productId x = pid) items
                    = Some (i, a) -> b ∈ items -> productId b = pid -> b = a).
  { intros i a b Hf Hb Hpb. apply list_find_Some in Hf as (Hi & Hpa & _).
    apply list_elem_of_lookup in Hb as [j Hj].
    assert (Hi' : map productId items !! i = Some pid)
      by (rewrite list_lookup_fmap, Hi; simpl; congruence).
    assert (Hj' : map productId items !! j = Some pid)
      by (rewrite list_lookup_fmap, Hj; simpl; congruence).
    assert (i = j) by (eapply NoDup_lookup; eauto).
    congruence. }
  destruct (decide (0 < length items)%nat) as [Hlen | Hlen].
  - destruct (list_find _ items) as [[i a]|] eqn:Hf.
    + pose proof Hf as Hf'. apply list_find_Some in Hf' as (Hi & Hpa & _).
      assert (Ha : a ∈ items) by (by eapply list_elem_of_lookup_2).
      split.
      * case_decide; split; try done.
        -- intros H'. specialize (H' a Ha Hpa). lia.
        -- intros _ b Hb Hpb. rewrite (Huniq i a b eq_refl Hb Hpb). lia.
      * intros b Hb Hpb Hq. rewrite (Huniq i a b eq_refl Hb Hpb) in *.
        by rewrite decide_True.
    + apply list_find_None in Hf. split; [split; [|done]|].
      * intros _ b Hb Hpb. rewrite Forall_forall in Hf. by destruct (Hf b Hb).
      * intros b Hb Hpb. rewrite Forall_forall in Hf. by destruct (Hf b Hb).
  - destruct items; [|simpl in Hlen; lia]. split; [split; [|done]|].
    + intros _ b Hb. by apply elem_of_nil in Hb.
    + intros b Hb. by apply elem_of_nil in Hb.
Qed.

Lemma add_to_cart_guard_witness :
  NoDup (map productId [{| productId := "p1"; quantity := 5 |}]) /\
  handleAddtoCart [{| productId := "p1"; quantity := 5 |}] "p1" 5 =
  OnlyQuantityToast 5.
Proof.
  assert (H : NoDup (map productId [{| productId := "p1"; quantity := 5 |}])).
  { apply NoDup_singleton. }
  split; [exact H|].
  refine (proj2 (add_to_cart_guard [{| productId := "p1"; quantity := 5 |}]
                   "p1" 5 H) {| productId := "p1"; quantity := 5 |} _ _ _).
  - apply elem_of_cons. by left.
  - reflexivity.
  - simpl. lia.
Defined.

(** ** The server handlers *)

(** X11: a request without a user, or whose user has no or an empty id, is
    answered 401 by both Firestore handlers, with the messages of the
    handlers, and the database is not consulted: the answer is the same
    whatever the Firestore module exports and the database would return. *)
Theorem unauthenticated_is_401_without_database fs fs' req :
  (req_user req = None \/
   exists u, req_user req = Some u /\
             (user_id u = None \/ user_id u = Some "")) ->
  getFilteredProductsFromFirebase fs req =
    {| res_status := 401;
       res_body := Failure "Authentication required to access products"
                     (Some "User not authenticated") |} /\
  getFilteredProductsFromFirebase fs' req =
    getFilteredProductsFromFirebase fs req /\
  getProductDetailsFromFirebase fs req =
    {| res_status := 401;
       res_body := Failure "Authentication required to access product details"
                     (Some "User not authenticated") |} /\
  getProductDetailsFromFirebase fs' req =
    getProductDetailsFromFirebase fs req.
Proof.
  intros H.
  assert (Hv : verifyAuthentication req = None).
  { unfold verifyAuthentication.
    destruct H as [H | (u & H & [Hu | Hu])]; rewrite H; simpl;
      rewrite ?Hu; done. }
  unfold getFilteredProductsFromFirebase, getProductDetailsFromFirebase.
  rewrite Hv. done.
Qed.

Lemma unauthenticated_is_401_without_database_witness :
  let req := {| req_user := Some {| user_id := Some "" |};
                q_category := None; q_brand := None; q_sortBy := None;
                q_page := None; q_limit := None; param_id := "p1" |} in
  res_status
    (getFilteredProductsFromFirebase
       (module_over (fun _ => Returned [shirt]) (fun _ => Returned None))
       req) = 401%Z.
Proof.
  cbv zeta.
  rewrite (proj1 (unauthenticated_is_401_without_database
    (module_over (fun _ => Returned [shirt]) (fun _ => Returned None))
    module_without
    {| req_user := Some {| user_id := Some "" |};
       q_category := None; q_brand := None; q_sortBy := None;
       q_page := None; q_limit := None; param_id := "p1" |}
    (or_intror (ex_intro _ {| user_id := Some "" |}
                  (conj eq_refl (or_intror eq_refl)))))).
  reflexivity.
Defined.

Lemma firebase_listing_answers fs req :
  getFilteredProductsFromFirebase fs req =
    {| res_status := 401;
       res_body := Failure "Authentication required to access products"
                     (Some "User not authenticated") |} \/
  (exists m, fetch_documents fs req = Raised m /\
     getFilteredProductsFromFirebase fs req =
     {| res_status := 500;
        res_body := Failure "Failed to fetch products" m |}) \/
  res_status (getFilteredProductsFromFirebase fs req) = 200%Z.
Proof.
  unfold getFilteredProductsFromFirebase.
  destruct (verifyAuthentication req); [|by left].
  destruct (fetch_documents fs req);
    [by right; right | right; left; by eexists].
Qed.

(** The view in Primary mode after the failure carrying a 500 of the
    listing handler. *)
Lemma listing_500_held c arg e m :
  consistent c ->
  err_response e =
    Some {| status := 500;
            data := Some {| data_message := Some "Failed to fetch products";
                            data_error := m |} |} ->
  let p := {| type := "SERVER_ERROR";
              message := or_else m "Server error while fetching products";
              code := "SERVER_ERROR" |} in
  step c (CallSettled (fetchAllFilteredProducts arg) (Thrown e)) =
  dispatch (fetchAllFilteredProducts_rejected (Some p)) c.
Proof.
  intros (Hs & _) Hcar p.
  assert (He : fetchAllFilteredProducts_catch e = Some p).
  { unfold fetchAllFilteredProducts_catch. rewrite Hcar. done. }
  unfold step. cbn [handle settled_action]. rewrite He.
  by apply step_unwatched.
Qed.

(** X12: no answer of the Firestore listing handler makes the view switch
    to the backup source: the handler answers 200, 401 or 500 and never
    404, so when the view in Primary mode receives the failure carrying
    one of its answers, it stays in Primary mode and shows no switch
    notice.  After the 401 the toast shows the handler's message and no
    error is held; after the 500 the held error carries the message of the
    exception raised in the handler, or the default when it has none. *)
Theorem firebase_listing_handler_never_triggers_fallback
    fs req c arg e :
  reachable c -> mode c = Primary ->
  carries e (getFilteredProductsFromFirebase fs req) ->
  res_status (getFilteredProductsFromFirebase fs req) <> 200%Z ->
  let c' := step c (CallSettled (fetchAllFilteredProducts arg) (Thrown e)) in
  mode c' = Primary /\ switched_count c' = switched_count c /\
  (res_status (getFilteredProductsFromFirebase fs req) = 401%Z ->
   currentError c' = None /\
   exists t, toasts c' = toasts c ++ [t] /\
     toast_description t = "Authentication required to access products") /\
  (forall m, fetch_documents fs req = Raised m ->
   res_status (getFilteredProductsFromFirebase fs req) = 500%Z ->
   exists p, currentError c' = Some p /\
     message p = or_else m "Server error while fetching products").
Proof.
  intros Hr Hm Hcar Hst c'.
  pose proof (reachable_consistent c Hr) as Hcons.
  destruct Hcons as (Hs & [Ha _] & _).
  unfold carries in Hcar.
  destruct (firebase_listing_answers fs req) as [H | [(m & Hfd & H) | H]];
    [| |done].
  - (* 401 *)
    rewrite H in *. cbn [res_status res_body] in *.
    set (p := {| type := "AUTH_ERROR";
                 message := "Authentication required to access products";
                 code := "UNAUTHORIZED" |}).
    assert (He : fetchAllFilteredProducts_catch e = Some p).
    { unfold fetchAllFilteredProducts_catch. rewrite Hcar. done. }
    assert (Hc' : c' = set_seen
              (render (dispatch clearProductErrors (toast (authToast p)
                 (dispatch (fetchAllFilteredProducts_rejected (Some p)) c))))
              (dispatch clearProductErrors (toast (authToast p)
                 (dispatch (fetchAllFilteredProducts_rejected (Some p)) c)))).
    { unfold c', step. cbn [handle settled_action]. rewrite He.
      by apply settle_auth_error. }
    rewrite Hc'. unfold mode in *. cbn [fallbackMode set_seen dispatch
      set_store toast].
    split; [done|]. split.
    { unfold switched_count. simpl.
      rewrite filter_app, length_app, filter_cons, filter_nil.
      rewrite decide_False by apply authToast_not_switched. simpl. lia. }
    split; [|intros ? ? ?; done].
    intros _. split; [done|]. by eexists.
  - (* 500 *)
    rewrite H in *. cbn [res_status res_body] in *.
    assert (Hc' := listing_500_held c arg e m (reachable_consistent c Hr) Hcar).
    cbv zeta in Hc'. fold c' in Hc'.
    rewrite Hc'. unfold mode, currentError, switched_count in *.
    cbn [fallbackMode store toasts dispatch set_store].
    split; [done|]. split; [done|]. split; [done|].
    intros m' Hm' _. rewrite Hfd in Hm'. injection Hm' as <-.
    by eexists.
Qed.

Lemma firebase_listing_handler_never_triggers_fallback_witness :
  let fs := module_over (fun _ => Raised (Some "quota exceeded"))
              (fun _ => Returned None) in
  let e := http_error 500
             (Some {| data_message := Some "Failed to fetch products";
                      data_error := Some "quota exceeded" |}) in
  reachable fresh /\
  carries e (getFilteredProductsFromFirebase fs plain_request) /\
  mode (step fresh
          (CallSettled (fetchAllFilteredProducts no_filters) (Thrown e))) =
  Primary.
Proof.
  cbv zeta. split; [apply reachable_fresh|]. split; [reflexivity|].
  refine (proj1 (firebase_listing_handler_never_triggers_fallback
    (module_over (fun _ => Raised (Some "quota exceeded"))
       (fun _ => Returned None))
    plain_request fresh no_filters _ reachable_fresh eq_refl _ _)).
  - reflexivity.
  - vm_compute. discriminate.
Defined.

Lemma build_all_exports fs ks f d n :
  build_all fs ks = Returned tt ->
  (orderBy f d ∈ ks -> is_Some (exports_orderBy fs)) /\
  (limit n ∈ ks -> is_Some (exports_limit fs)).
Proof.
  induction ks as [|k ks IH]; [by split; intros ?%elem_of_nil|].
  cbn [build_all]. destruct (build fs k) as [[] | m] eqn:Ek; [|done].
  intros Hks. destruct (IH Hks) as [IH1 IH2].
  split; intros [<- | Hin]%elem_of_cons; auto.
  - cbn [build] in Ek. by destruct (exports_orderBy fs).
  - cbn [build] in Ek. by destruct (exports_limit fs).
Qed.

(** The documents are fetched only through the names of the module. *)
Lemma fetch_documents_exports fs req docs :
  fetch_documents fs req = Returned docs ->
  is_Some (exports_collection fs) /\ is_Some (exports_orderBy fs) /\
  is_Some (exports_limit fs) /\ is_Some (exports_query fs) /\
  is_Some (exports_getDocs fs).
Proof.
  unfold fetch_documents. cbv zeta.
  destruct (exports_collection fs) as [fc|]; [|done]. cbn.
  destruct (fc "products") as [[] |]; [|done]. cbn.
  destruct (build_all fs (firebase_constraints req)) as [[] |] eqn:Eb;
    [|done]. cbn.
  destruct (exports_query fs) as [fq|]; [|done]. cbn.
  destruct (fq (firebase_constraints req)) as [[] |]; [|done]. cbn.
  destruct (exports_getDocs fs) as [fg|]; [|done]. intros _.
  destruct (build_all_exports fs (firebase_constraints req)
              match sort_constraint (default "price-lowtohigh" (q_sortBy req))
              with orderBy f _ => f | _ => "" end
              match sort_constraint (default "price-lowtohigh" (q_sortBy req))
              with orderBy _ d => d | _ => asc end
              (num_mul (default (Whole 20) (q_limit req))
                 (default (Whole 1) (q_page req))) Eb) as [H1 H2].
  rewrite firebase_constraints_parts in H1, H2.
  repeat split; try (by eexists).
  - apply H1. apply elem_of_app. right. apply elem_of_cons. left.
    unfold sort_constraint. by repeat case_decide.
  - apply H2. apply elem_of_app. right. apply elem_of_cons. right.
    apply elem_of_cons. by left.
Qed.

(** X13: the listing handler reaches the database only through the names
    it takes from the Firestore module: it answers 200 only if the module
    exports [collection], [orderBy], [limit], [query] and [getDocs].
    When [collection] is not exported, every authenticated request is
    answered 500 "Failed to fetch products" with the error "collection is
    not a function", whatever the request asks for; the view in Primary
    mode then holds a SERVER_ERROR with that text, renders the error state
    and does not switch to the backup source. *)
Theorem firebase_listing_needs_exports fs req c arg e :
  is_Some (verifyAuthentication req) ->
  (res_status (getFilteredProductsFromFirebase fs req) = 200%Z ->
   is_Some (exports_collection fs) /\ is_Some (exports_orderBy fs) /\
   is_Some (exports_limit fs) /\ is_Some (exports_query fs) /\
   is_Some (exports_getDocs fs)) /\
  (exports_collection fs = None ->
   getFilteredProductsFromFirebase fs req =
     {| res_status := 500;
        res_body := Failure "Failed to fetch products"
                      (Some "collection is not a function") |} /\
   (reachable c -> mode c = Primary ->
    carries e (getFilteredProductsFromFirebase fs req) ->
    let c' := step c (CallSettled (fetchAllFilteredProducts arg) (Thrown e)) in
    mode c' = Primary /\ toasts c' = toasts c /\
    dispatched c' = dispatched c /\
    currentError c' =
      Some {| type := "SERVER_ERROR";
              message := "collection is not a function";
              code := "SERVER_ERROR" |} /\
    blocks c' = [ErrorState])).
Proof.
  intros [u Hu]. split.
  - unfold getFilteredProductsFromFirebase. rewrite Hu. cbv zeta.
    destruct (fetch_documents fs req) as [docs | m] eqn:E; [|done].
    intros _. by apply (fetch_documents_exports fs req docs).
  - intros Hc.
    assert (Hres : getFilteredProductsFromFirebase fs req =
              {| res_status := 500;
                 res_body := Failure "Failed to fetch products"
                               (Some "collection is not a function") |}).
    { unfold getFilteredProductsFromFirebase, fetch_documents.
      by rewrite Hu, Hc. }
    split; [done|]. intros Hr Hm Hcar c'.
    unfold carries in Hcar. rewrite Hres in Hcar. cbn in Hcar.
    pose proof (reachable_consistent c Hr) as Hcons.
    assert (Hc' := listing_500_held c arg e _ Hcons Hcar).
    cbv zeta in Hc'. fold c' in Hc'.
    destruct Hcons as (_ & [Ha _] & _).
    rewrite Hc'. unfold mode, currentError, blocks in *.
    cbn [fallbackMode store toasts dispatched dispatch set_store reducer
         payload_type_is bool_decide type isLoading error authError
         productList].
    simpl. rewrite Ha. done.
Qed.

Lemma firebase_listing_needs_exports_witness :
  let e := http_error 500
             (Some {| data_message := Some "Failed to fetch products";
                      data_error := Some "collection is not a function" |}) in
  is_Some (verifyAuthentication plain_request) /\
  getFilteredProductsFromFirebase module_without plain_request =
    {| res_status := 500;
       res_body := Failure "Failed to fetch products"
                     (Some "collection is not a function") |} /\
  blocks (step fresh
            (CallSettled (fetchAllFilteredProducts no_filters) (Thrown e))) =
  [ErrorState].
Proof.
  cbv zeta.
  assert (H : is_Some (verifyAuthentication plain_request)) by (by eexists).
  destruct (firebase_listing_needs_exports module_without plain_request
              fresh no_filters
              (http_error 500
                 (Some {| data_message := Some "Failed to fetch products";
                          data_error := Some "collection is not a function" |}))
              H) as [_ H2].
  destruct (H2 eq_refl) as [H3 H4].
  split; [exact H|]. split; [exact H3|].
  exact (proj2 (proj2 (proj2 (proj2
    (H4 reachable_fresh eq_refl eq_refl))))).
Defined.

(** X14: the MongoDB listing handler answers 500 "Some error occured" to
    a request whose category or brand parameter is repeated (a non-empty
    array), without consulting the database, whereas the Firestore handler
    takes the array as the list of values. *)
Theorem mongo_listing_rejects_repeated_parameter find find' req l :
  l <> [] ->
  q_category req = Some (QArray l) \/ q_brand req = Some (QArray l) ->
  getFilteredProducts find req =
    {| res_status := 500; res_body := Failure "Some error occured" None |} /\
  getFilteredProducts find' req = getFilteredProducts find req /\
  (q_category req = Some (QArray l) ->
   where_in "category" (take 10 l) ∈ firebase_constraints req).
Proof.
  intros Hl H.
  assert (Hlen : (0 < length l)%nat) by (destruct l; [done | simpl; lia]).
  assert (Hm : mongo_facet (Some (QArray l)) =
               Raised (Some "split is not a function")).
  { simpl. by rewrite decide_True. }
  assert (Hres : forall f, getFilteredProducts f req =
            {| res_status := 500;
               res_body := Failure "Some error occured" None |}).
  { intros f. unfold getFilteredProducts. cbv zeta.
    destruct H as [H | H]; rewrite H, ?Hm; [done|].
    by destruct (mongo_facet (q_category req)). }
  split; [apply Hres|]. split; [by rewrite !Hres|].
  intros Hc. unfold firebase_constraints. cbv zeta. rewrite Hc.
  cbn [facet_values]. rewrite decide_True by done.
  rewrite js_slice_first_ten.
  apply elem_of_app. left. apply elem_of_cons. by left.
Qed.

Lemma mongo_listing_rejects_repeated_parameter_witness :
  let req := {| req_user := None;
                q_category := Some (QArray ["men"; "women"]);
                q_brand := None; q_sortBy := None;
                q_page := None; q_limit := None; param_id := "" |} in
  res_status (getFilteredProducts (fun _ _ => Returned [shirt]) req) = 500%Z.
Proof.
  cbv zeta.
  rewrite (proj1 (mongo_listing_rejects_repeated_parameter
    (fun _ _ => Returned [shirt]) (fun _ _ => Returned [])
    {| req_user := None; q_category := Some (QArray ["men"; "women"]);
       q_brand := None; q_sortBy := None;
       q_page := None; q_limit := None; param_id := "" |}
    ["men"; "women"] ltac:(discriminate) (or_introl eq_refl))).
  reflexivity.
Defined.

(** X15: the two listing handlers order the products alike: for every
    value of [sortBy], the Firestore handler orders by the same field and
    in the same direction as the MongoDB handler, and any value other than
    the four known ones orders by price, ascending. *)
Theorem handlers_sort_alike sortBy :
  exists f d,
    sort_constraint sortBy = orderBy f d /\
    sort_order sortBy = (f, direction_sign d) /\
    (sortBy ∉ ["price-lowtohigh"; "price-hightolow"; "title-atoz";
               "title-ztoa"] ->
     f = "price" /\ d = asc).
Proof.
  unfold sort_constraint, sort_order.
  repeat case_decide; subst; do 2 eexists;
    (split; [reflexivity|]); (split; [reflexivity|]);
    rewrite !not_elem_of_cons; intros; intuition congruence.
Qed.

(** X21: the details handler without the names of the modular Firestore
    interface, end to end: when the Firestore module does not export
    [doc], every authenticated request for a product is answered 500
    "Failed to fetch product details" with the error "doc is not a
    function"; the details thunk turns the failure carrying that answer
    into a SERVER_ERROR value with the handler's message, and the slice
    then holds no product details and that value as its error, the product
    list being kept. *)
Theorem details_without_exports_end_to_end fs req e s :
  is_Some (verifyAuthentication req) ->
  exports_doc fs = None ->
  carries e (getProductDetailsFromFirebase fs req) ->
  let p := {| type := "SERVER_ERROR";
              message := "Failed to fetch product details";
              code := "SERVER_ERROR" |} in
  let s' := reducer s (fetchProductDetails_rejected
                         (fetchProductDetails_catch e)) in
  getProductDetailsFromFirebase fs req =
    {| res_status := 500;
       res_body := Failure "Failed to fetch product details"
                     (Some "doc is not a function") |} /\
  fetchProductDetails_catch e = Some p /\
  productDetails s' = None /\ error s' = Some p /\
  productList s' = productList s /\ firebaseError s' = firebaseError s /\
  authError s' = authError s.
Proof.
  intros [u Hu] Hd Hcar p s'.
  assert (Hres : getProductDetailsFromFirebase fs req =
            {| res_status := 500;
               res_body := Failure "Failed to fetch product details"
                             (Some "doc is not a function") |}).
  { unfold getProductDetailsFromFirebase, fetch_document. by rewrite Hu, Hd. }
  unfold carries in Hcar. rewrite Hres in Hcar. cbn in Hcar.
  assert (He : fetchProductDetails_catch e = Some p).
  { unfold fetchProductDetails_catch. by rewrite Hcar. }
  unfold s'. rewrite He. done.
Qed.

Lemma details_without_exports_end_to_end_witness :
  let e := http_error 500
             (Some {| data_message := Some "Failed to fetch product details";
                      data_error := Some "doc is not a function" |}) in
  is_Some (verifyAuthentication plain_request) /\
  exports_doc module_without = None /\
  carries e (getProductDetailsFromFirebase module_without plain_request) /\
  fetchProductDetails_catch e =
    Some {| type := "SERVER_ERROR";
            message := "Failed to fetch product details";
            code := "SERVER_ERROR" |}.
Proof.
  cbv zeta.
  assert (H : is_Some (verifyAuthentication plain_request)) by (by eexists).
  split; [exact H|]. split; [reflexivity|]. split; [reflexivity|].
  refine (proj1 (proj2 (details_without_exports_end_to_end module_without
    plain_request
    (http_error 500
       (Some {| data_message := Some "Failed to fetch product details";
                data_error := Some "doc is not a function" |}))
    initialState H eq_refl _))).
  reflexivity.
Defined.
